(** * Food expenses tracker: a shallow embedding of [food_tracker.py]

    The application keeps one SQLite table, [expenses (id, date, meal,
    amount)], and offers two pages that matter here: "Daily Entry" (read,
    save and delete the entry of a meal for the selected date) and "Monthly
    Summary" (range scan over a month, totals per day and per meal group).

    Modelling choices, all following the source:
    - text (the [meal] column, Python [str]) is [string]; case folding is
      the ASCII one, which is what SQLite's [LIKE] does and what Python's
      [str.lower] does on ASCII text;
    - a date is the triple held by a Python [datetime.date]; SQLite sees it
      through its ISO text [YYYY-MM-DD], and compares that text;
    - an amount of the table (SQLite [REAL], Python [float]) is kept as the
      rational it stands for, which the pages of entry only compare with 0;
      the totals are sums pandas takes of float64 numbers, so the numbers
      of a data frame and their sums come from a record of what the
      library provides, with binary floating point and exact arithmetic as
      its two instances;
    - the table is the list of its rows in rowid order, together with the
      [AUTOINCREMENT] counter of [sqlite_sequence];
    - a closure over [selected_date] takes the date as its first argument,
      and a function that writes to the database maps a table to a table. *)

From Stdlib Require Import ZArith QArith List String Ascii Bool Lia.
From Stdlib Require Import Sorted Permutation Morphisms RelationClasses.
From Stdlib Require OrderedTypeEx.
From Stdlib Require Floats Uint63.

Module SOT := OrderedTypeEx.String_as_OT.
Import ListNotations.

Local Open Scope string_scope.
Local Open Scope Z_scope.

(** ** Text *)

Module Text.

(** ASCII case folding of one character: [A]..[Z] move to [a]..[z]. *)
Definition lower_char (c : ascii) : ascii :=
  let n := N_of_ascii c in
  if (65 <=? n)%N && (n <=? 90)%N then ascii_of_N (n + 32) else c.

(** [s.lower()] *)
Fixpoint lower (s : string) : string :=
  match s with
  | EmptyString => EmptyString
  | String c r => String (lower_char c) (lower r)
  end.

(** [w in s] on Python strings: [w] occurs in [s] as a substring. *)
Fixpoint contains (w s : string) : bool :=
  prefix w s ||
  match s with
  | EmptyString => false
  | String _ r => contains w r
  end.

(** [any(word in s for word in words)] *)
Definition any_in (words : list string) (s : string) : bool :=
  existsb (fun word => contains word s) words.

(** SQLite's [x LIKE 'p%'] for a pattern [p] without wildcards: [p] is a
    prefix of [x], ASCII letters compared without case. *)
Definition like_prefix (p x : string) : bool :=
  prefix (lower p) (lower x).

(** A Python [dict] with string keys, as its list of items in order. *)
Definition dict := list (string * string).

(** [k in d] *)
Definition dict_mem (k : string) (d : dict) : bool :=
  existsb (fun kv => (fst kv =? k)%string) d.

(** [d[k]], [None] for a [KeyError]. *)
Fixpoint dict_get (k : string) (d : dict) : option string :=
  match d with
  | [] => None
  | (k', v) :: r => if (k' =? k)%string then Some v else dict_get k r
  end.

(** [d.values()] *)
Definition dict_values (d : dict) : list string := map snd d.

End Text.

(** ** Monthly Summary: the meal groups *)

Module MealGroup.
Import Text.

(** [categorize_meal], nested in the Monthly Summary page. *)
Definition categorize_meal (meal : string) : string :=
  let meal_lower := lower meal in
  if any_in ["breakfast"; "morning"] meal_lower then "Breakfast"
  else if any_in ["lunch"; "afternoon"] meal_lower then "Lunch"
  else if any_in ["dinner"; "evening"] meal_lower then "Dinner"
  else "Other".

(** The six keywords the function looks for. *)
Definition keywords : list string :=
  ["breakfast"; "morning"; "lunch"; "afternoon"; "dinner"; "evening"].

(** No keyword occurs in the lowercased text. *)
Definition no_keyword (meal : string) : bool :=
  negb (any_in keywords (lower meal)).

End MealGroup.

(** ** The four meal categories of the interface *)

Inductive category : Set := Breakfast | Lunch | Dinner | Other.

(** The label the Daily Entry page passes for a category. *)
Definition label (m : category) : string :=
  match m with
  | Breakfast => "Breakfast"
  | Lunch => "Lunch"
  | Dinner => "Dinner"
  | Other => "Other"
  end.

(** The label older versions of the application stored. *)
Definition legacy_label (m : category) : option string :=
  match m with
  | Breakfast => Some "Morning"
  | Lunch => Some "Afternoon"
  | Dinner => Some "Evening"
  | Other => None
  end.

(** ** Dates: Python's [datetime.date] and the pieces of [dateutil] and
    [calendar] the Monthly Summary uses *)

Module datetime.

Record date : Set := mkdate { year : Z; month : Z; day : Z }.

Definition MINYEAR : Z := 1.
Definition MAXYEAR : Z := 9999.

(** [calendar.isleap] *)
Definition isleap (y : Z) : bool :=
  (y mod 4 =? 0) && (negb (y mod 100 =? 0) || (y mod 400 =? 0)).

(** [calendar.monthrange(y, m)[1]], the number of days of a month. *)
Definition days_in_month (y m : Z) : Z :=
  if m =? 2 then (if isleap y then 29 else 28)
  else if (m =? 4) || (m =? 6) || (m =? 9) || (m =? 11) then 30
  else 31.

(** The values a [date] object can hold. *)
Definition valid (d : date) : bool :=
  (MINYEAR <=? year d) && (year d <=? MAXYEAR) &&
  (1 <=? month d) && (month d <=? 12) &&
  (1 <=? day d) && (day d <=? days_in_month (year d) (month d)).

(** [date(y, m, d)]; [None] stands for the [ValueError] or [OverflowError]
    Python raises outside the range of the type. *)
Definition make (y m d : Z) : option date :=
  let x := mkdate y m d in if valid x then Some x else None.

(** [dt.replace(day=n)] *)
Definition replace_day (dt : date) (n : Z) : option date :=
  make (year dt) (month dt) n.

(** [dt + relativedelta(months=1)]: the month moves on by one, the year
    with it after December, and the day is cut to the length of the new
    month. *)
Definition add_one_month (dt : date) : option date :=
  let m := month dt + 1 in
  let '(y, m) := if 12 <? m then (year dt + 1, m - 12) else (year dt, m) in
  make y m (Z.min (days_in_month y m) (day dt)).

(** [dt - timedelta(days=1)]: the day before. *)
Definition sub_one_day (dt : date) : option date :=
  if 1 <? day dt then make (year dt) (month dt) (day dt - 1)
  else if 1 <? month dt
       then make (year dt) (month dt - 1) (days_in_month (year dt) (month dt - 1))
       else make (year dt - 1) 12 31.

(** The order of dates: by year, then month, then day. *)
Definition compare (a b : date) : comparison :=
  match year a ?= year b with
  | Eq => match month a ?= month b with
          | Eq => day a ?= day b
          | c => c
          end
  | c => c
  end.

(** [a <= b] *)
Definition leb (a b : date) : bool :=
  match compare a b with Gt => false | _ => true end.

(** One decimal digit as a character. *)
Definition digit (n : Z) : ascii := ascii_of_N (48 + Z.to_N n).

(** The last [width] decimal digits of [n], as [%0<width>d] prints a
    number that has no more digits than that. *)
Fixpoint zfill (width : nat) (n : Z) : string :=
  match width with
  | O => EmptyString
  | S w => zfill w (n / 10) ++ String (digit (n mod 10)) EmptyString
  end.

(** [dt.isoformat()], the text [sqlite3] binds for a [date] parameter. *)
Definition isoformat (dt : date) : string :=
  zfill 4 (year dt) ++ "-" ++ zfill 2 (month dt) ++ "-" ++ zfill 2 (day dt).

End datetime.

(** ** The table [expenses] *)

Module expenses.

Record row : Set := mkrow {
  id : Z;          (* INTEGER PRIMARY KEY AUTOINCREMENT *)
  date : string;   (* DATE NOT NULL, held as ISO text *)
  meal : string;   (* TEXT NOT NULL *)
  amount : Q       (* REAL NOT NULL *)
}.

(** The rows in rowid order and the largest rowid ever handed out. *)
Record table : Set := mktable { rows : list row; seq : Z }.

(** [SELECT ... WHERE p]: the rows a full scan finds, in rowid order. *)
Definition select (p : row -> bool) (t : table) : list row :=
  filter p (rows t).

(** [DELETE FROM expenses WHERE p] *)
Definition delete (p : row -> bool) (t : table) : table :=
  mktable (filter (fun r => negb (p r)) (rows t)) (seq t).

(** The rowid [AUTOINCREMENT] gives the next row: one more than every
    rowid the table holds or has ever held. *)
Definition next_id (t : table) : Z :=
  Z.max (seq t) (fold_right Z.max 0 (map id (rows t))) + 1.

(** [INSERT INTO expenses (date, meal, amount) VALUES (?, ?, ?)] *)
Definition insert (d m : string) (a : Q) (t : table) : table :=
  let i := next_id t in
  mktable (rows t ++ [mkrow i d m a]) i.

(** [ORDER BY]: a stable sort for the order [leb]. *)
Fixpoint insert_sorted (leb : row -> row -> bool) (r : row) (l : list row) : list row :=
  match l with
  | [] => [r]
  | x :: l' => if leb r x then r :: l else x :: insert_sorted leb r l'
  end.

Definition order_by (leb : row -> row -> bool) (l : list row) : list row :=
  fold_right (insert_sorted leb) [] l.

(** [ORDER BY id DESC] *)
Definition id_desc (r x : row) : bool := id x <=? id r.

(** [ORDER BY date], the dates compared as text. *)
Definition date_asc (r x : row) : bool := String.leb (date r) (date x).

(** [x BETWEEN lo AND hi] on text. *)
Definition between (lo hi x : string) : bool :=
  String.leb lo x && String.leb x hi.

End expenses.

(** ** pandas, as far as the pages use it *)

Module pandas.

(** What the pages take from pandas and numpy, as the libraries have it:
    the numbers of a [REAL] column in a data frame (float64), how an amount
    is read as one, the comparison and the sums of such numbers, and the
    dates [pd.to_datetime] makes of a column of texts ([None] when it
    raises), which [groupby] compares and [strftime] prints. *)
Record library : Type := mklibrary {
  number : Type;
  real : Q -> number;
  of_int : Z -> number;
  ltb : number -> number -> bool;
  series_sum : list number -> number;
  group_sum : list number -> number;
  Timestamp : Type;
  to_datetime : list string -> option (list Timestamp);
  Timestamp_eq_dec : forall a b : Timestamp, {a = b} + {a <> b};
  Timestamp_leb : Timestamp -> Timestamp -> bool;
  strftime : Timestamp -> string
}.

Section GroupBy.
Context {K V : Type}.
Variable eq_dec : forall a b : K, {a = b} + {a <> b}.
Variable leb : K -> K -> bool.
Variable sum_of_group : list V -> V.






End GroupBy.

(** Sums are exact for an addition: the addition is associative and
    commutative for an equivalence it respects, [of_int 0] is its zero, and
    both sums of the library add the numbers of the column. *)
Definition exact_sums (pd : library)
    (eqv : number pd -> number pd -> Prop)
    (add : number pd -> number pd -> number pd) : Prop :=
  (forall a, eqv a a) /\
  (forall a b, eqv a b -> eqv b a) /\
  (forall a b c, eqv a b -> eqv b c -> eqv a c) /\
  (forall a a' b b', eqv a a' -> eqv b b' -> eqv (add a b) (add a' b')) /\
  (forall a b, eqv (add a b) (add b a)) /\
  (forall a b c, eqv (add a (add b c)) (add (add a b) c)) /\
  (forall a, eqv (add (of_int pd 0) a) a) /\
  (forall l, eqv (series_sum pd l) (fold_right add (of_int pd 0) l)) /\
  (forall l, eqv (group_sum pd l) (fold_right add (of_int pd 0) l)).

End pandas.

(** ** The page "Daily Entry" *)

Module DailyEntry.
Import Text expenses.

(** [amount > 0] *)
Definition positive (a : Q) : bool := negb (Qle_bool a 0).

(** [date = ?] with [selected_date] bound to the parameter. *)
Definition on_date (selected_date : datetime.date) (r : row) : bool :=
  (date r =? datetime.isoformat selected_date)%string.

(** [meal = ?] *)
Definition meal_is (name : string) (r : row) : bool :=
  (meal r =? name)%string.

(** [(meal LIKE 'Other%' OR meal = 'Other')] *)
Definition other_meal (r : row) : bool :=
  like_prefix "Other" (meal r) || (meal r =? "Other")%string.

(** [df.empty] *)
Definition empty (df : list row) : bool :=
  match df with [] => true | _ => false end.

(** [df['amount'].iloc[0] if not df.empty else None] *)
Definition first_amount (df : list row) : option Q :=
  match df with
  | [] => None
  | r :: _ => Some (amount r)
  end.

(** [old_names[meal_name]] under the guard [meal_name in old_names]. *)
Definition renamed (meal_name : string) (old_names : dict) : string :=
  match dict_get meal_name old_names with
  | Some name => name
  | None => meal_name
  end.

Definition get_existing_amount
    (selected_date : datetime.date) (t : table) (meal_name : string) : option Q :=
  let df :=
    if (meal_name =? "Other")%string then
      firstn 1 (order_by id_desc
                  (select (fun r => on_date selected_date r && other_meal r) t))
    else
      let old_names :=
        [("Morning", "Breakfast"); ("Afternoon", "Lunch"); ("Evening", "Dinner")] in
      let query name :=
        select (fun r => on_date selected_date r && meal_is name r) t in
      let df := query meal_name in
      if empty df && dict_mem meal_name old_names
      then query (renamed meal_name old_names)
      else df
  in
  first_amount df.

Definition delete_entry
    (selected_date : datetime.date) (t : table) (meal_name : string) : table :=
  if (meal_name =? "Other")%string then
    delete (fun r => on_date selected_date r && other_meal r) t
  else
    let old_names :=
      [("Morning", "Breakfast"); ("Afternoon", "Lunch"); ("Evening", "Dinner")] in
    let meal_name :=
      if dict_mem meal_name old_names then renamed meal_name old_names
      else meal_name in
    delete (fun r => on_date selected_date r && meal_is meal_name r) t.

(** The loop [for k, v in old_names.items(): if v == meal_name: meal_name
    = k; break]: the first key whose value is [meal_name], and [meal_name]
    itself when there is none. *)
Fixpoint first_key_of (meal_name : string) (items : dict) : string :=
  match items with
  | [] => meal_name
  | (k, v) :: r => if (v =? meal_name)%string then k else first_key_of meal_name r
  end.

(** [f"{meal_name}: {desc}" if desc and meal_name == "Other" else meal_name] *)
Definition full_meal (meal_name desc : string) : string :=
  if negb (desc =? "")%string && (meal_name =? "Other")%string
  then meal_name ++ ": " ++ desc
  else meal_name.

Definition save_entry
    (selected_date : datetime.date) (t : table)
    (meal_name : string) (amount : Q) (desc : string) : table :=
  let '(t, meal_name) :=
    if (meal_name =? "Other")%string then
      (delete (fun r => on_date selected_date r && other_meal r) t, meal_name)
    else
      let old_names :=
        [("Breakfast", "Morning"); ("Lunch", "Afternoon"); ("Dinner", "Evening")] in
      let meal_name :=
        if existsb (String.eqb meal_name) (dict_values old_names)
        then first_key_of meal_name old_names
        else meal_name in
      (delete (fun r => on_date selected_date r && meal_is meal_name r) t, meal_name)
  in
  if positive amount then
    insert (datetime.isoformat selected_date) (full_meal meal_name desc) amount t
  else t.

(** The button "Clear All Today's Entries". *)
Definition clear_all (selected_date : datetime.date) (t : table) : table :=
  delete (on_date selected_date) t.

(** The amount a text input stands for: [0.0] when the input is blank or
    when [float] raises [ValueError].  Python's [float] and [str.strip] are
    taken as they are. *)
Section Parsing.
Variable float : string -> option Q.
Variable strip : string -> string.

Definition parsed (input : string) : Q :=
  if (strip input =? "")%string then 0%Q
  else match float input with
       | Some x => x
       | None => 0%Q
       end.

End Parsing.

End DailyEntry.

(** ** The page "Monthly Summary" *)

Module MonthlySummary.
Import Text MealGroup expenses.

(** [month_start] and [month_end] for the selected date. *)
Definition month_range (selected_month : datetime.date)
  : option (datetime.date * datetime.date) :=
  match datetime.replace_day selected_month 1 with
  | None => None
  | Some month_start =>
    match datetime.add_one_month month_start with
    | None => None
    | Some next_month =>
      match datetime.sub_one_day next_month with
      | None => None
      | Some month_end => Some (month_start, month_end)
      end
    end
  end.

(** [SELECT date, meal, amount FROM expenses WHERE date BETWEEN ? AND ?
    ORDER BY date] *)
Definition df_month (selected_month : datetime.date) (t : table)
  : option (list row) :=
  match month_range selected_month with
  | None => None
  | Some (month_start, month_end) =>
    Some (order_by date_asc
            (select (fun r => between (datetime.isoformat month_start)
                                      (datetime.isoformat month_end) (date r)) t))
  end.

(** The column [amount] of a data frame, as numbers. *)
Definition amounts (pd : pandas.library) (df : list row)
  : list (pandas.number pd) :=
  map (fun r => pandas.real pd (amount r)) df.









End MonthlySummary.

(** ** Vocabulary of the properties *)

Import Text MealGroup expenses DailyEntry MonthlySummary.

(** A stored label belongs to a category: the current label, the legacy
    label, or, for [Other], a label the queries of the page take for an
    "Other" entry ([Other: desc] among them). *)
Definition belongs (m : category) (stored : string) : bool :=
  match m with
  | Other => like_prefix "Other" stored || (stored =? "Other")%string
  | _ =>
    (stored =? label m)%string ||
    match legacy_label m with
    | Some old => (stored =? old)%string
    | None => false
    end
  end.

(** The rows the queries of the page reach for a category: its current
    label, or the "Other" condition. *)
Definition current (m : category) (r : row) : bool :=
  match m with
  | Other => other_meal r
  | _ => meal_is (label m) r
  end.

(** The entries of a category on a date. *)
Definition entries (d : datetime.date) (m : category) (t : table) : list row :=
  filter (fun r => on_date d r && belongs m (meal r)) (rows t).

(** Sample data: 1 September 2025, and a table that an older version of
    the application left with one breakfast stored as [Morning]. *)
Definition sept1 : datetime.date := datetime.mkdate 2025 9 1.

Definition morning_row : row := mkrow 1 "2025-09-01" "Morning" 30.

Definition legacy_table : table := mktable [morning_row] 1.

Definition empty_table : table := mktable [] 0.

(** ** Two instances of the library *)

Module arithmetic.

(** The date an ISO text [YYYY-MM-DD] stands for. *)
Definition digit_value (c : ascii) : option Z :=
  let n := N_of_ascii c in
  if (48 <=? n)%N && (n <=? 57)%N then Some (Z.of_N n - 48) else None.

Definition digits_value (cs : list ascii) : option Z :=
  fold_left (fun acc c =>
               match acc, digit_value c with
               | Some a, Some d => Some (10 * a + d)
               | _, _ => None
               end) cs (Some 0).

Definition fromisoformat (s : string) : option datetime.date :=
  match list_ascii_of_string s with
  | [y1; y2; y3; y4; sep1; m1; m2; sep2; d1; d2] =>
    if (sep1 =? "-")%char && (sep2 =? "-")%char then
      match digits_value [y1; y2; y3; y4],
            digits_value [m1; m2], digits_value [d1; d2] with
      | Some y, Some m, Some d => datetime.make y m d
      | _, _, _ => None
      end
    else None
  | _ => None
  end.

(** [pd.to_datetime] on a column of ISO dates, the texts the application
    stores: the dates.  A column with any other text is outside these
    instances, which give [None] for it. *)
Fixpoint iso_dates (column : list string) : option (list datetime.date) :=
  match column with
  | [] => Some []
  | s :: rest =>
    match fromisoformat s, iso_dates rest with
    | Some d, Some ds => Some (d :: ds)
    | _, _ => None
    end
  end.

Definition date_eq_dec (a b : datetime.date) : {a = b} + {a <> b}.
Proof. decide equality; apply Z.eq_dec. Defined.

(** Exact arithmetic: the numbers are rationals and the sums add them
    up. *)
Definition exact : pandas.library :=
  pandas.mklibrary Q (fun a => a) inject_Z
    (fun a b => negb (Qle_bool b a))
    (fold_right Qplus 0%Q) (fold_right Qplus 0%Q)
    datetime.date iso_dates date_eq_dec datetime.leb datetime.isoformat.

(** Binary floating point, as Python, SQLite, numpy and pandas have it:
    an integer below 2^63 as a float64 number. *)
Definition float_of_Z (z : Z) : PrimFloat.float :=
  match z with
  | Z0 => PrimFloat.of_uint63 (Uint63.of_Z 0)
  | Zpos _ => PrimFloat.of_uint63 (Uint63.of_Z z)
  | Zneg p => PrimFloat.opp (PrimFloat.of_uint63 (Uint63.of_Z (Zpos p)))
  end.

(** The float64 number nearest to an amount whose numerator and
    denominator are below 2^53: their quotient, rounded once. *)
Definition float_of_Q (a : Q) : PrimFloat.float :=
  PrimFloat.div (float_of_Z (Qnum a)) (float_of_Z (Zpos (Qden a))).

(** numpy's [pairwise_sum] of a float64 array, which [Series.sum] runs on
    the column once pandas has put [0.0] for every NaN: fewer than eight
    numbers are added from left to right; up to 128 numbers are added into
    eight running sums, these are added in pairs, and the numbers left over
    are added one by one; a longer array is cut in two. *)
Definition sum_loop (res : PrimFloat.float) (a : list PrimFloat.float)
  : PrimFloat.float :=
  fold_left PrimFloat.add a res.

Fixpoint add_blocks (r a : list PrimFloat.float) (blocks : nat)
  : list PrimFloat.float * list PrimFloat.float :=
  match blocks with
  | O => (r, a)
  | S b =>
    add_blocks (map (fun xy => PrimFloat.add (fst xy) (snd xy))
                    (combine r (firstn 8 a)))
               (skipn 8 a) b
  end.

Definition block_sum (a : list PrimFloat.float) : PrimFloat.float :=
  let n := List.length a in
  let '(r, rest) :=
    add_blocks (firstn 8 a) (skipn 8 a) ((n - n mod 8 - 8) / 8)%nat in
  match r with
  | [r0; r1; r2; r3; r4; r5; r6; r7] =>
    sum_loop
      (PrimFloat.add
         (PrimFloat.add (PrimFloat.add r0 r1) (PrimFloat.add r2 r3))
         (PrimFloat.add (PrimFloat.add r4 r5) (PrimFloat.add r6 r7)))
      rest
  | _ => sum_loop (float_of_Z 0) a
  end.

Fixpoint pairwise_sum (fuel : nat) (a : list PrimFloat.float)
  : PrimFloat.float :=
  let n := List.length a in
  if (n <? 8)%nat then sum_loop (float_of_Z 0) a
  else if (n <=? 128)%nat then block_sum a
  else
    match fuel with
    | O => block_sum a
    | S fuel' =>
      let n2 := (n / 2 - (n / 2) mod 8)%nat in
      PrimFloat.add (pairwise_sum fuel' (firstn n2 a))
                    (pairwise_sum fuel' (skipn n2 a))
    end.

(** [Series.sum()] of a float64 column ([skipna=True], [min_count=0]). *)
Definition nansum (column : list PrimFloat.float) : PrimFloat.float :=
  let values :=
    map (fun x => if PrimFloat.is_nan x then float_of_Z 0 else x) column in
  PrimFloat.add (float_of_Z 0) (pairwise_sum (List.length values) values).

(** The sum of one group in [groupby(...).sum()]: pandas adds the numbers
    of the group from first to last with Kahan's compensation, and leaves
    NaN out. *)
Definition kahan_step (state : PrimFloat.float * PrimFloat.float)
    (val : PrimFloat.float) : PrimFloat.float * PrimFloat.float :=
  let '(sumx, compensation) := state in
  if PrimFloat.is_nan val then state
  else
    let y := PrimFloat.sub val compensation in
    let t := PrimFloat.add sumx y in
    let c := PrimFloat.sub (PrimFloat.sub t sumx) y in
    (t, if PrimFloat.is_nan c then float_of_Z 0 else c).

Definition kahan_sum (group : list PrimFloat.float) : PrimFloat.float :=
  fst (fold_left kahan_step group (float_of_Z 0, float_of_Z 0)).

Definition binary64 : pandas.library :=
  pandas.mklibrary PrimFloat.float float_of_Q float_of_Z PrimFloat.ltb
    nansum kahan_sum
    datetime.date iso_dates date_eq_dec datetime.leb datetime.isoformat.

End arithmetic.


(** ** The rest of the page "Daily Entry" *)

Module DailyView.
Import Text expenses DailyEntry MonthlySummary.

(** [daily_total]: [df_today['amount'].sum()], and [0.0] when the date has
    no row. *)
Definition daily_total (pd : pandas.library)
    (selected_date : datetime.date) (t : table) : pandas.number pd :=
  let df_today := select (on_date selected_date) t in
  if empty df_today then pandas.of_int pd 0
  else pandas.series_sum pd (amounts pd df_today).

(** The three messages under the daily total. *)
Inductive feedback : Set := Over | Saved | OnTrack.

(** [if daily_total > 220: ... elif daily_total < 150: ... else: ...] *)
Definition daily_feedback (pd : pandas.library)
    (daily_total : pandas.number pd) : feedback :=
  if pandas.ltb pd (pandas.of_int pd 220) daily_total then Over
  else if pandas.ltb pd daily_total (pandas.of_int pd 150) then Saved
  else OnTrack.

(** [ORDER BY meal], the labels compared as text. *)
Definition meal_asc (r x : row) : bool := String.leb (meal r) (meal x).

(** [SELECT meal, amount FROM expenses WHERE date = ? ORDER BY meal], the
    table "Today's Entries". *)
Definition df_entries (selected_date : datetime.date) (t : table) : list row :=
  order_by meal_asc (select (on_date selected_date) t).

End DailyView.

(** ** The button "Clear All Data" and the page "Debug DB" *)

Module DebugDB.
Import Text expenses.

(** [DELETE FROM expenses]: the rows go, the [AUTOINCREMENT] counter
    stays. *)
Definition clear_all_data (t : table) : table := delete (fun _ => true) t.

(** [ORDER BY date DESC, id DESC] *)
Definition date_desc_id_desc (r x : row) : bool :=
  match String.compare (date r) (date x) with
  | Gt => true
  | Lt => false
  | Eq => id x <=? id r
  end.

(** [SELECT id, date, meal, amount FROM expenses ORDER BY date DESC, id
    DESC] *)
Definition df_all (t : table) : list row :=
  order_by date_desc_id_desc (select (fun _ => true) t).

(** [SELECT ... WHERE date LIKE '2025-09%' ORDER BY date DESC, id DESC] *)
Definition df_sept (t : table) : list row :=
  order_by date_desc_id_desc
    (select (fun r => like_prefix "2025-09" (date r)) t).

End DebugDB.

(** ** The actions of the interface *)

Module Page.
Import Text expenses DailyEntry DebugDB.

(** What a press of a button does to the table: "Save" of a category with
    the amount read from its input (and, for [Other], the note), "Delete"
    of a category, "Clear All Today's Entries", and "Clear All Data". *)
Inductive action : Set :=
| Save (selected_date : datetime.date) (m : category) (amount : Q) (desc : string)
| Delete (selected_date : datetime.date) (m : category)
| ClearDay (selected_date : datetime.date)
| ClearAllData.

(** The note the page passes to [save_entry]: [other_desc] for [Other],
    the default [""] for the other three. *)
Definition passed_desc (m : category) (desc : string) : string :=
  match m with
  | Other => desc
  | _ => ""
  end.

Definition run (t : table) (x : action) : table :=
  match x with
  | Save d m a desc => save_entry d t (label m) a (passed_desc m desc)
  | Delete d m => delete_entry d t (label m)
  | ClearDay d => clear_all d t
  | ClearAllData => clear_all_data t
  end.

(** A sequence of presses, from the first to the last. *)
Definition run_all (xs : list action) (t : table) : table :=
  fold_left run xs t.

(** The dates of the actions are values of [datetime.date]. *)
Definition dated (x : action) : bool :=
  match x with
  | Save d _ _ _ | Delete d _ | ClearDay d => datetime.valid d
  | ClearAllData => true
  end.

(** The rowids grow along the table, are positive and do not exceed the
    counter. *)
Definition ids_in_order (t : table) : Prop :=
  StronglySorted Z.lt (map id (rows t)) /\
  Forall (fun r => 0 < id r <= seq t) (rows t).

(** Every amount is positive. *)
Definition amounts_positive (t : table) : Prop :=
  Forall (fun r => (0 < amount r)%Q) (rows t).

(** Every label is one of the four current ones or [Other: desc]. *)
Definition labels_current (t : table) : Prop :=
  Forall (fun r => In (meal r) ["Breakfast"; "Lunch"; "Dinner"; "Other"] \/
                   exists desc, meal r = "Other: " ++ desc) (rows t).

(** At most one row per date and category. *)
Definition one_per_key (t : table) : Prop :=
  forall (dt : string) (m : category),
    (List.length (filter (fun r => (date r =? dt)%string && current m r)
                         (rows t)) <= 1)%nat.

(** Every date is the ISO text of a date. *)
Definition dates_iso (t : table) : Prop :=
  Forall (fun r => exists d, datetime.valid d = true /\
                             date r = datetime.isoformat d) (rows t).

End Page.

(** * Theorems *)

(** ** Text and meal groups *)

Lemma any_in_app (ws1 ws2 : list string) (s : string) :
  any_in (ws1 ++ ws2)%list s = any_in ws1 s || any_in ws2 s.
Proof. unfold any_in. apply existsb_app. Qed.

Lemma no_keyword_split (meal : string) :
  no_keyword meal = true <->
  any_in ["breakfast"; "morning"] (lower meal) = false /\
  any_in ["lunch"; "afternoon"] (lower meal) = false /\
  any_in ["dinner"; "evening"] (lower meal) = false.
Proof.
  unfold no_keyword, keywords.
  change ["breakfast"; "morning"; "lunch"; "afternoon"; "dinner"; "evening"]
    with (["breakfast"; "morning"] ++ ["lunch"; "afternoon"]
            ++ ["dinner"; "evening"])%list.
  rewrite !any_in_app, negb_true_iff, !orb_false_iff. tauto.
Qed.

Lemma categorize_meal_Other_iff (meal : string) :
  categorize_meal meal = "Other" <-> no_keyword meal = true.
Proof.
  rewrite no_keyword_split. unfold categorize_meal.
  destruct (any_in ["breakfast"; "morning"] (lower meal)).
  - split; [discriminate | intros [H _]; discriminate].
  - destruct (any_in ["lunch"; "afternoon"] (lower meal)).
    + split; [discriminate | intros (_ & H & _); discriminate].
    + destruct (any_in ["dinner"; "evening"] (lower meal)).
      * split; [discriminate | intros (_ & _ & H); discriminate].
      * tauto.
Qed.

Lemma categorize_meal_in_groups (meal : string) :
  In (categorize_meal meal) (map label [Breakfast; Lunch; Dinner; Other]).
Proof.
  unfold categorize_meal.
  destruct (any_in ["breakfast"; "morning"] (lower meal)); [simpl; tauto|].
  destruct (any_in ["lunch"; "afternoon"] (lower meal)); [simpl; tauto|].
  destruct (any_in ["dinner"; "evening"] (lower meal)); simpl; tauto.
Qed.

(** C2: [categorize_meal] returns one of the four group names on every
    text; the legacy labels [Morning], [Afternoon], [Evening] go to
    [Breakfast], [Lunch], [Dinner]; the four current labels go to
    themselves; and the texts that go to [Other] are those in which, read
    in lower case as the function reads them, none of the six keywords
    occurs. *)
Theorem categorize_meal_total_and_normalizing :
  (forall meal, In (categorize_meal meal) (map label [Breakfast; Lunch; Dinner; Other])) /\
  (categorize_meal "Morning" = "Breakfast" /\
   categorize_meal "Afternoon" = "Lunch" /\
   categorize_meal "Evening" = "Dinner") /\
  (forall m, categorize_meal (label m) = label m) /\
  (forall meal, no_keyword meal = true <-> categorize_meal meal = "Other").
Proof.
  split; [exact categorize_meal_in_groups|].
  split; [repeat split|].
  split; [intros []; reflexivity|].
  intros meal. symmetry. apply categorize_meal_Other_iff.
Qed.

Lemma lower_app (a b : string) : lower (a ++ b) = lower a ++ lower b.
Proof. induction a as [|c a IH]; simpl; [reflexivity | now rewrite IH]. Qed.

(** The prefix [Other: ] of a stored label hides no keyword and completes
    none: the group of [Other: desc] is the group of [desc]. *)
Lemma categorize_meal_Other_desc (desc : string) :
  categorize_meal ("Other: " ++ desc) = categorize_meal desc.
Proof.
  unfold categorize_meal. rewrite lower_app.
  change (lower "Other: ") with "other: ".
  reflexivity.
Qed.

(** ** The table: scans, deletions and insertions *)

Lemma filter_filter_negb {A} (p : A -> bool) (l : list A) :
  filter p (filter (fun x => negb (p x)) l) = [].
Proof.
  induction l as [|x l IH]; simpl; [reflexivity|].
  destruct (p x) eqn:E; simpl; [exact IH | now rewrite E].
Qed.

Lemma filter_incl_sub {A} (p q : A -> bool) (l : list A) :
  (forall x, q x = true -> p x = true) ->
  filter (fun x => negb (p x)) (filter (fun x => negb (q x)) l)
  = filter (fun x => negb (p x)) l.
Proof.
  intros H. induction l as [|x l IH]; simpl; [reflexivity|].
  destruct (q x) eqn:Eq; simpl.
  - now rewrite (H x Eq).
  - destruct (p x); simpl; now rewrite IH.
Qed.

Lemma select_delete (p : row -> bool) (t : table) :
  select p (delete p t) = [].
Proof. apply filter_filter_negb. Qed.

Lemma in_rows_delete (p : row -> bool) (t : table) (r : row) :
  In r (rows (delete p t)) <-> In r (rows t) /\ p r = false.
Proof.
  unfold delete; simpl. rewrite filter_In, negb_true_iff. tauto.
Qed.

Lemma rows_insert (d m : string) (a : Q) (t : table) :
  rows (insert d m a t) = (rows t ++ [mkrow (next_id t) d m a])%list.
Proof. reflexivity. Qed.

Lemma fold_max_ge (l : list Z) (x : Z) : In x l -> x <= fold_right Z.max 0 l.
Proof.
  induction l as [|y l IH]; simpl; [tauto|].
  intros [->|H]; [lia | specialize (IH H); lia].
Qed.

(** A rowid from [AUTOINCREMENT] is larger than every rowid in the table. *)
Lemma next_id_fresh (t : table) (r : row) : In r (rows t) -> id r < next_id t.
Proof.
  intros H. unfold next_id.
  assert (id r <= fold_right Z.max 0 (map id (rows t)))
    by (apply fold_max_ge, in_map, H).
  lia.
Qed.

Lemma in_insert_sorted leb (r x : row) (l : list row) :
  In x (insert_sorted leb r l) <-> x = r \/ In x l.
Proof.
  induction l as [|y l IH]; simpl; [intuition congruence|].
  destruct (leb r y); simpl; [intuition congruence|].
  rewrite IH. intuition congruence.
Qed.

Lemma in_order_by leb (x : row) (l : list row) :
  In x (order_by leb l) <-> In x l.
Proof.
  induction l as [|y l IH]; simpl; [tauto|].
  rewrite in_insert_sorted, IH. intuition congruence.
Qed.

(** [ORDER BY id DESC] puts a row of largest rowid first. *)
Lemma order_by_id_desc_head (l : list row) :
  match order_by id_desc l with
  | [] => l = []
  | x :: _ => In x l /\ forall y, In y l -> id y <= id x
  end.
Proof.
  induction l as [|a l IH]; simpl; [reflexivity|].
  destruct (order_by id_desc l) as [|x rest]; simpl.
  - subst l. split; [now left|]. intros y [->|[]]. lia.
  - destruct IH as [Hin Hmax]. unfold id_desc at 1.
    destruct (id x <=? id a) eqn:E.
    + apply Z.leb_le in E. split; [now left|].
      intros y [->|Hy]; [lia | specialize (Hmax y Hy); lia].
    + apply Z.leb_gt in E. split; [now right|].
      intros y [->|Hy]; [lia | now apply Hmax].
Qed.

(** ** Daily Entry called with the label of a category *)

Lemma save_entry_label d t m a desc :
  save_entry d t (label m) a desc =
  let t' := delete (fun r => on_date d r && current m r) t in
  if positive a
  then insert (datetime.isoformat d) (full_meal (label m) desc) a t'
  else t'.
Proof. destruct m; reflexivity. Qed.

Lemma delete_entry_label d t m :
  delete_entry d t (label m) = delete (fun r => on_date d r && current m r) t.
Proof. destruct m; reflexivity. Qed.

Lemma get_existing_amount_label d t m :
  get_existing_amount d t (label m) =
  first_amount
    (match m with
     | Other => firstn 1 (order_by id_desc
                            (select (fun r => on_date d r && current m r) t))
     | _ => select (fun r => on_date d r && current m r) t
     end).
Proof.
  destruct m; unfold get_existing_amount; simpl;
    try rewrite andb_false_r; reflexivity.
Qed.

(** What [delete_entry] removes, [get_existing_amount] does not find. *)
Lemma get_existing_amount_after_delete d t m :
  get_existing_amount d (delete_entry d t (label m)) (label m) = None.
Proof.
  rewrite get_existing_amount_label, delete_entry_label, select_delete.
  destruct m; reflexivity.
Qed.

(** The rows of the table after [save_entry]: the rows the deletion keeps,
    in their order, and after them the new row when the amount is
    positive. *)
Lemma rows_save_entry d t m a desc :
  rows (save_entry d t (label m) a desc) =
  (filter (fun r => negb (on_date d r && current m r)) (rows t) ++
   if positive a
   then [mkrow (next_id (delete (fun r => on_date d r && current m r) t))
               (datetime.isoformat d) (full_meal (label m) desc) a]
   else [])%list.
Proof.
  rewrite save_entry_label. simpl.
  destruct (positive a); simpl; [reflexivity | now rewrite app_nil_r].
Qed.

(** [save_entry] on any name: one deletion, then at most one insertion,
    under a name that is never a legacy label and that is a current label
    when the caller passed a current or a legacy label. *)
Lemma save_entry_shape d t name a desc :
  exists p name',
    save_entry d t name a desc =
      (if positive a
       then insert (datetime.isoformat d) (full_meal name' desc) a (delete p t)
       else delete p t) /\
    ~ In name' ["Morning"; "Afternoon"; "Evening"] /\
    (In name ["Breakfast"; "Lunch"; "Dinner"; "Other";
              "Morning"; "Afternoon"; "Evening"] ->
     In name' ["Breakfast"; "Lunch"; "Dinner"; "Other"]).
Proof.
  unfold save_entry.
  destruct (String.eqb_spec name "Other") as [->|HO].
  { eexists _, "Other". split; [reflexivity|]. split.
    - simpl. intuition discriminate.
    - intros _. simpl. tauto. }
  destruct (String.eqb_spec name "Morning") as [->|HM].
  { eexists _, "Breakfast". split; [reflexivity|]. split.
    - simpl. intuition discriminate.
    - intros _. simpl. tauto. }
  destruct (String.eqb_spec name "Afternoon") as [->|HA].
  { eexists _, "Lunch". split; [reflexivity|]. split.
    - simpl. intuition discriminate.
    - intros _. simpl. tauto. }
  destruct (String.eqb_spec name "Evening") as [->|HE].
  { eexists _, "Dinner". split; [reflexivity|]. split.
    - simpl. intuition discriminate.
    - intros _. simpl. tauto. }
  eexists _, name. split.
  - unfold dict_values. simpl.
    apply String.eqb_neq in HM, HA, HE.
    rewrite HM, HA, HE. reflexivity.
  - split.
    + simpl. intuition congruence.
    + simpl. intuition congruence.
Qed.

(** The rows after [save_entry]: rows of the table, and after them the
    rows of its [INSERT], one when the amount is positive and none
    otherwise. *)
Lemma save_entry_inserted d t name a desc :
  exists kept name',
    rows (save_entry d t name a desc) =
      (kept ++ if positive a
               then [mkrow (next_id (mktable kept (seq t)))
                           (datetime.isoformat d) (full_meal name' desc) a]
               else [])%list /\
    incl kept (rows t) /\
    ~ In name' ["Morning"; "Afternoon"; "Evening"] /\
    (In name ["Breakfast"; "Lunch"; "Dinner"; "Other";
              "Morning"; "Afternoon"; "Evening"] ->
     In name' ["Breakfast"; "Lunch"; "Dinner"; "Other"]).
Proof.
  destruct (save_entry_shape d t name a desc) as (p & name' & E & Hleg & Hcur).
  exists (filter (fun r => negb (p r)) (rows t)), name'.
  rewrite E. split.
  - destruct (positive a); simpl; [reflexivity | now rewrite app_nil_r].
  - split; [|tauto]. intros r Hr. apply filter_In in Hr. tauto.
Qed.

Lemma full_meal_cases name desc :
  full_meal name desc = name \/
  (name = "Other" /\ full_meal name desc = "Other: " ++ desc).
Proof.
  unfold full_meal.
  destruct (negb (desc =? "")%string); simpl; [|now left].
  destruct (String.eqb_spec name "Other") as [->|]; [right|left]; auto.
Qed.

(** C9: the rows of the table after [save_entry] are rows it had before
    and, after them, the rows inserted: one when the amount is positive,
    none otherwise.  Whatever name [save_entry] is called with, an inserted
    row never carries [Morning], [Afternoon] or [Evening]; called with a
    current label (as the page does) or a legacy one, an inserted row
    carries [Breakfast], [Lunch], [Dinner], [Other] or [Other: desc]. *)
Theorem save_entry_writes_current_labels d t name a desc :
  exists kept inserted,
    rows (save_entry d t name a desc) = (kept ++ inserted)%list /\
    incl kept (rows t) /\
    List.length inserted = (if positive a then 1 else 0)%nat /\
    forall r, In r inserted ->
      ~ In (meal r) ["Morning"; "Afternoon"; "Evening"] /\
      (In name ["Breakfast"; "Lunch"; "Dinner"; "Other";
                "Morning"; "Afternoon"; "Evening"] ->
       In (meal r) ["Breakfast"; "Lunch"; "Dinner"; "Other"] \/
       meal r = "Other: " ++ desc).
Proof.
  destruct (save_entry_inserted d t name a desc)
    as (kept & name' & E & Hkept & Hleg & Hcur).
  eexists kept, _. split; [exact E|]. split; [exact Hkept|].
  destruct (positive a); simpl; (split; [reflexivity|]); [|tauto].
  intros r [<-|[]]. simpl.
  destruct (full_meal_cases name' desc) as [E'|[-> E']]; rewrite E'.
  - split; [exact Hleg|]. intros H. left. exact (Hcur H).
  - split; [|now right]. simpl. intuition discriminate.
Qed.

(** ** Amounts that are not positive *)

Lemma positive_false (a : Q) : (a <= 0)%Q -> positive a = false.
Proof.
  intros H. unfold positive. apply Qle_bool_iff in H. now rewrite H.
Qed.

Lemma positive_true (a : Q) : positive a = true <-> (0 < a)%Q.
Proof.
  unfold positive. rewrite negb_true_iff. split.
  - intros H. apply Qnot_le_lt. intros Hle.
    apply Qle_bool_iff in Hle. congruence.
  - intros H. destruct (Qle_bool a 0) eqn:E; [|reflexivity].
    apply Qle_bool_iff in E. exfalso. exact (Qlt_not_le _ _ H E).
Qed.

(** A blank input and an input [float] rejects both stand for [0.0]. *)
Lemma parsed_blank float strip input :
  strip input = "" -> parsed float strip input = 0%Q.
Proof. intros H. unfold parsed. now rewrite H. Qed.

Lemma parsed_invalid float strip input :
  float input = None -> parsed float strip input = 0%Q.
Proof.
  intros H. unfold parsed. rewrite H. now destruct (strip input =? "")%string.
Qed.

(** C8: with an amount that is not positive, [save_entry] is
    [delete_entry]: the entry of the category under its current label is
    gone for the date, the rows left are the rows the table had outside
    that entry, and no rowid is used.  With any amount, the rows after
    [save_entry] are rows of the table and, after them, the rows inserted,
    and an inserted row has a positive amount. *)
Theorem save_entry_nonpositive_is_deletion d t m a desc :
  (a <= 0)%Q ->
  save_entry d t (label m) a desc = delete_entry d t (label m) /\
  select (fun r => on_date d r && current m r)
         (save_entry d t (label m) a desc) = [] /\
  (forall r, In r (rows (save_entry d t (label m) a desc)) <->
             In r (rows t) /\ (on_date d r && current m r) = false) /\
  (forall a', exists kept inserted,
     rows (save_entry d t (label m) a' desc) = (kept ++ inserted)%list /\
     incl kept (rows t) /\
     forall r, In r inserted -> (0 < amount r)%Q).
Proof.
  intros Ha.
  assert (E : save_entry d t (label m) a desc = delete_entry d t (label m)).
  { rewrite save_entry_label, delete_entry_label. simpl.
    now rewrite (positive_false a Ha). }
  split; [exact E|]. rewrite E, delete_entry_label.
  split; [apply select_delete|].
  split; [intros r; apply in_rows_delete|].
  intros a'.
  destruct (save_entry_inserted d t (label m) a' desc)
    as (kept & name' & E' & Hkept & _).
  eexists kept, _. split; [exact E'|]. split; [exact Hkept|].
  destruct (positive a') eqn:Hpos; [|intros r []].
  intros r [<-|[]]. simpl. now apply positive_true.
Qed.

Lemma save_entry_nonpositive_is_deletion_witness :
  (0 <= 0)%Q /\
  save_entry sept1 legacy_table (label Lunch) 0 ""
  = delete_entry sept1 legacy_table (label Lunch).
Proof.
  split; [apply Qle_refl|].
  apply (save_entry_nonpositive_is_deletion sept1 legacy_table Lunch 0 "").
  apply Qle_refl.
Defined.

(** ** Categories of stored labels *)

Lemma current_belongs m r : current m r = true -> belongs m (meal r) = true.
Proof.
  destruct m; simpl; unfold meal_is, other_meal; intros H;
    try (rewrite H; reflexivity); exact H.
Qed.

(** A label belongs to one category at most, and the queries for another
    category do not reach it. *)
Lemma belongs_other_category m m' r :
  m' <> m -> belongs m' (meal r) = true -> current m r = false.
Proof.
  intros Hne Hb.
  destruct (current m r) eqn:Hc; [|reflexivity]. exfalso.
  destruct m, m'; try congruence; simpl in Hb, Hc;
    unfold meal_is, other_meal in Hc;
    repeat match goal with
    | H : (_ || _) = true |- _ => apply orb_true_iff in H; destruct H as [H|H]
    | H : (meal r =? _)%string = true |- _ => apply String.eqb_eq in H
    end;
    try congruence;
    match goal with
    | H : meal r = _ |- _ => rewrite H in *; vm_compute in *; congruence
    end.
Qed.

(** C10: "Clear All Today's Entries" removes the rows of the selected
    date and no other: a row is in the table afterwards iff it was there
    with another date, and the rows of other dates are the same rows in the
    same order.  [delete_entry] for a category adds nothing, keeps every row
    of another date and every row of the selected date whose label belongs
    to another category, and leaves the rows outside the (date, category)
    pair the same rows in the same order. *)
Theorem delete_frame d t :
  (forall r, In r (rows (clear_all d t)) <->
             In r (rows t) /\ date r <> datetime.isoformat d) /\
  filter (fun r => negb (on_date d r)) (rows (clear_all d t))
  = filter (fun r => negb (on_date d r)) (rows t) /\
  (forall m r, In r (rows (delete_entry d t (label m))) -> In r (rows t)) /\
  (forall m r, In r (rows t) ->
     date r <> datetime.isoformat d \/
     (exists m', m' <> m /\ belongs m' (meal r) = true) ->
     In r (rows (delete_entry d t (label m)))) /\
  (forall m,
     filter (fun r => negb (on_date d r && belongs m (meal r)))
            (rows (delete_entry d t (label m)))
     = filter (fun r => negb (on_date d r && belongs m (meal r))) (rows t)).
Proof.
  split; [|split; [|split; [|split]]].
  - intros r. unfold clear_all. rewrite in_rows_delete.
    unfold on_date. rewrite String.eqb_neq. tauto.
  - unfold clear_all, delete; simpl.
    apply (filter_incl_sub (on_date d) (on_date d)). auto.
  - intros m r. rewrite delete_entry_label, in_rows_delete. tauto.
  - intros m r Hin H. rewrite delete_entry_label, in_rows_delete.
    split; [exact Hin|].
    destruct H as [Hd|(m' & Hne & Hb)].
    + apply String.eqb_neq in Hd. unfold on_date. now rewrite Hd.
    + rewrite (belongs_other_category m m' r Hne Hb). apply andb_false_r.
  - intros m. rewrite delete_entry_label. unfold delete; simpl.
    apply (filter_incl_sub (fun r => on_date d r && belongs m (meal r))
                           (fun r => on_date d r && current m r)).
    intros r H. apply andb_true_iff in H. destruct H as [H1 H2].
    now rewrite H1, (current_belongs m r H2).
Qed.

Lemma delete_frame_witness :
  let lunch := mkrow 2 "2025-09-01" "Lunch" 80 in
  let t := mktable [morning_row; lunch] 2 in
  In morning_row (rows t) /\
  (date morning_row <> datetime.isoformat sept1 \/
   (exists m', m' <> Lunch /\ belongs m' (meal morning_row) = true)) /\
  In morning_row (rows (delete_entry sept1 t (label Lunch))).
Proof.
  intros lunch t.
  assert (Hin : In morning_row (rows t)) by (simpl; tauto).
  assert (H : date morning_row <> datetime.isoformat sept1 \/
              (exists m', m' <> Lunch /\ belongs m' (meal morning_row) = true)).
  { right. exists Breakfast. split; [discriminate | reflexivity]. }
  split; [exact Hin|]. split; [exact H|].
  exact (proj1 (proj2 (proj2 (proj2 (delete_frame sept1 t)))) Lunch morning_row Hin H).
Defined.

(** ** Saving and reading back under the current label *)

Lemma filter_kept_and_new {A} (p : A -> bool) (l : list A) (x : A) :
  p x = true ->
  filter p (filter (fun y => negb (p y)) l ++ [x]) = [x].
Proof.
  intros H. rewrite filter_app, filter_filter_negb. simpl. now rewrite H.
Qed.

Lemma full_meal_label m desc :
  m <> Other -> full_meal (label m) desc = label m.
Proof.
  intros H. unfold full_meal.
  destruct m; try congruence; simpl; now rewrite andb_false_r.
Qed.

Lemma current_full_meal m i d a desc :
  current m (mkrow i d (full_meal (label m) desc) a) = true.
Proof.
  destruct m; try (rewrite full_meal_label by discriminate; reflexivity).
  unfold current, other_meal, full_meal. simpl.
  destruct (negb (desc =? "")%string); reflexivity.
Qed.

(** Among the rows the page reaches for a category (current label, or the
    "Other" condition), a positive save leaves one for the date: the new
    one, holding the amount. *)
Lemma save_entry_one_current_entry d t m a desc :
  positive a = true ->
  exists i,
    select (fun r => on_date d r && current m r)
           (save_entry d t (label m) a desc)
    = [mkrow i (datetime.isoformat d) (full_meal (label m) desc) a].
Proof.
  intros Hpos. eexists. unfold select.
  rewrite rows_save_entry, Hpos.
  apply (filter_kept_and_new (fun r => on_date d r && current m r)).
  rewrite current_full_meal. unfold on_date. simpl date.
  now rewrite String.eqb_refl.
Qed.

(** The queries of the page for a category do not reach a row stored
    under its legacy label. *)
Lemma current_legacy_false m old r :
  legacy_label m = Some old -> meal r = old -> current m r = false.
Proof.
  intros H E. destruct m; simpl in H; try discriminate;
    injection H as <-; unfold current, meal_is; rewrite E; reflexivity.
Qed.

(** On every table, a row stored under the legacy label of a category
    stays through [delete_entry] and through [save_entry] for that
    category. *)
Lemma legacy_rows_survive d t m old r a desc :
  legacy_label m = Some old -> meal r = old -> In r (rows t) ->
  In r (rows (delete_entry d t (label m))) /\
  In r (rows (save_entry d t (label m) a desc)).
Proof.
  intros H E Hin.
  pose proof (current_legacy_false m old r H E) as Hc.
  assert (Hkept : In r (filter (fun r => negb (on_date d r && current m r))
                               (rows t))).
  { apply filter_In. split; [exact Hin|]. now rewrite Hc, andb_false_r. }
  split.
  - rewrite delete_entry_label. exact Hkept.
  - rewrite rows_save_entry. apply in_or_app. now left.
Qed.

(** C1, at a table that holds a breakfast of 1 September 2025 under the
    legacy label [Morning]: saving [Breakfast] with amount 50 for that date
    leaves two rows of the category Breakfast for the date, the old one
    with its amount 30 and the new one, where an upsert keyed by (date,
    category) leaves one row with amount 50. *)
Theorem save_entry_keeps_legacy_entry :
  entries sept1 Breakfast (save_entry sept1 legacy_table "Breakfast" 50 "")
  = [morning_row; mkrow 2 "2025-09-01" "Breakfast" 50].
Proof. vm_compute. reflexivity. Qed.


(** At the same table, [delete_entry] for [Breakfast] leaves the row
    stored as [Morning] where it is: the row is not among those
    [get_existing_amount] reads, before the deletion or after it. *)
Lemma delete_entry_keeps_legacy_entry :
  entries sept1 Breakfast (delete_entry sept1 legacy_table "Breakfast")
  = [morning_row] /\
  get_existing_amount sept1 (delete_entry sept1 legacy_table "Breakfast")
                      "Breakfast" = None /\
  get_existing_amount sept1 legacy_table "Breakfast" = None.
Proof. vm_compute. repeat split. Qed.

(** The part of C7 on a current label: the amount of the first row that
    carries the label for the date, [None] when there is none. *)
Lemma get_existing_amount_current d t m :
  m <> Other ->
  get_existing_amount d t (label m) =
  first_amount (filter (fun r => on_date d r && meal_is (label m) r) (rows t)).
Proof.
  intros H. rewrite get_existing_amount_label.
  destruct m; try reflexivity. congruence.
Qed.

(** On every table, [get_existing_amount] for a current label answers
    [None] when no row carries that label for the date, whatever is stored
    under the legacy label. *)
Lemma get_existing_amount_no_fallback d t m :
  m <> Other ->
  filter (fun r => on_date d r && meal_is (label m) r) (rows t) = [] ->
  get_existing_amount d t (label m) = None.
Proof.
  intros Hm E. now rewrite get_existing_amount_current, E.
Qed.

(** The part of C7 on [Other]: the amount of a row of largest rowid among
    those of the date that the "Other" condition takes, [None] when there
    is none. *)
Lemma get_existing_amount_Other d t :
  match get_existing_amount d t "Other" with
  | None => forall r, In r (rows t) -> (on_date d r && other_meal r) = false
  | Some a =>
    exists r, In r (rows t) /\ on_date d r = true /\ other_meal r = true /\
              amount r = a /\
              forall r', In r' (rows t) -> on_date d r' = true ->
                         other_meal r' = true -> id r' <= id r
  end.
Proof.
  change "Other" with (label Other). rewrite get_existing_amount_label.
  unfold select, current.
  pose proof (order_by_id_desc_head
                (filter (fun r => on_date d r && other_meal r) (rows t))) as H.
  destruct (order_by id_desc _) as [|x rest]; simpl.
  - intros r Hr. destruct (on_date d r && other_meal r) eqn:E; [|reflexivity].
    assert (Hin : In r (filter (fun r => on_date d r && other_meal r) (rows t)))
      by (apply filter_In; auto).
    rewrite H in Hin. destruct Hin.
  - destruct H as [Hin Hmax]. apply filter_In in Hin.
    destruct Hin as [Hin Hp]. apply andb_true_iff in Hp.
    exists x. repeat split; try tauto.
    intros r' Hr' Hd Ho. apply Hmax, filter_In. split; [exact Hr'|].
    now rewrite Hd, Ho.
Qed.

(** C7, at the table that holds a breakfast of 1 September 2025 under the
    legacy label [Morning] and none under [Breakfast]:
    [get_existing_amount] for [Breakfast] answers [None], not the amount 30
    stored under the legacy label. *)
Theorem get_existing_amount_misses_legacy_entry :
  entries sept1 Breakfast legacy_table = [morning_row] /\
  filter (fun r => on_date sept1 r && meal_is "Breakfast" r) (rows legacy_table) = [] /\
  get_existing_amount sept1 legacy_table "Breakfast" = None.
Proof. vm_compute. repeat split. Qed.

(** ** Saved labels and meal groups *)

Lemma categorize_full_meal_Other desc :
  categorize_meal (full_meal "Other" desc) = categorize_meal desc.
Proof.
  unfold full_meal. destruct (String.eqb_spec desc "") as [->|H]; simpl.
  - reflexivity.
  - apply categorize_meal_Other_desc.
Qed.

(** C3, as the code has it: a positive save adds one row, with the label
    [full_meal] builds.  [categorize_meal] gives that row the category it
    was saved as when the category is [Breakfast], [Lunch] or [Dinner];
    saved as [Other], the row gets the group [categorize_meal] gives to the
    note alone.  So the row is counted under the category it was saved as
    exactly when the category is not [Other] or the note, read in lower
    case, holds none of the six keywords. *)
Theorem saved_label_round_trip d t m a desc :
  positive a = true ->
  exists r kept,
    rows (save_entry d t (label m) a desc) = (kept ++ [r])%list /\
    incl kept (rows t) /\
    meal r = full_meal (label m) desc /\
    categorize_meal (meal r)
    = match m with
      | Other => categorize_meal desc
      | _ => label m
      end /\
    (categorize_meal (meal r) = label m <-> m <> Other \/ no_keyword desc = true).
Proof.
  intros Hpos. rewrite rows_save_entry, Hpos.
  eexists _, _. split; [reflexivity|].
  split; [intros x Hx; apply filter_In in Hx; tauto|].
  split; [reflexivity|]. simpl.
  destruct m.
  - rewrite full_meal_label by discriminate.
    split; [reflexivity|]. split; [left; discriminate|reflexivity].
  - rewrite full_meal_label by discriminate.
    split; [reflexivity|]. split; [left; discriminate|reflexivity].
  - rewrite full_meal_label by discriminate.
    split; [reflexivity|]. split; [left; discriminate|reflexivity].
  - simpl label. rewrite categorize_full_meal_Other.
    split; [reflexivity|]. rewrite categorize_meal_Other_iff.
    split; [now right | intros [H|H]; [congruence | exact H]].
Qed.

Lemma saved_label_round_trip_witness :
  positive 20 = true /\
  exists r kept,
    rows (save_entry sept1 legacy_table (label Other) 20 "lunch dinner")
    = (kept ++ [r])%list /\
    incl kept (rows legacy_table) /\
    meal r = full_meal (label Other) "lunch dinner" /\
    categorize_meal (meal r) = categorize_meal "lunch dinner" /\
    (categorize_meal (meal r) = label Other <->
     Other <> Other \/ no_keyword "lunch dinner" = true).
Proof.
  split; [reflexivity|].
  apply (saved_label_round_trip sept1 legacy_table Other 20 "lunch dinner").
  reflexivity.
Defined.

(** C3 as stated fails: saved as [Other] with the note [dinner], the entry
    is stored as [Other: dinner] and counted under [Dinner]. *)
Lemma saved_Other_counted_as_Dinner :
  map meal (rows (save_entry sept1 empty_table (label Other) 20 "dinner"))
  = ["Other: dinner"] /\
  categorize_meal (full_meal (label Other) "dinner") = "Dinner" /\
  ~ (forall m desc, categorize_meal (full_meal (label m) desc) = label m).
Proof.
  split; [reflexivity|]. split; [reflexivity|].
  intros H. specialize (H Other "dinner"). discriminate H.
Qed.

(** ** Dates and their ISO text *)

Lemma valid_iff (d : datetime.date) :
  datetime.valid d = true <->
  1 <= datetime.year d <= 9999 /\ 1 <= datetime.month d <= 12 /\
  1 <= datetime.day d <= datetime.days_in_month (datetime.year d) (datetime.month d).
Proof.
  unfold datetime.valid, datetime.MINYEAR, datetime.MAXYEAR.
  rewrite !andb_true_iff, !Z.leb_le. tauto.
Qed.

Lemma days_in_month_bounds y m : 28 <= datetime.days_in_month y m <= 31.
Proof.
  unfold datetime.days_in_month.
  destruct (m =? 2); [destruct (datetime.isleap y); lia|].
  destruct ((m =? 4) || (m =? 6) || (m =? 9) || (m =? 11)); lia.
Qed.

Lemma days_in_December y : datetime.days_in_month y 12 = 31.
Proof. reflexivity. Qed.

Lemma make_valid y m d :
  datetime.valid (datetime.mkdate y m d) = true ->
  datetime.make y m d = Some (datetime.mkdate y m d).
Proof. intros H. unfold datetime.make. now rewrite H. Qed.

(** Closes a validity goal by linear arithmetic, with the bounds of every
    month length that occurs in it. *)
Ltac solve_valid :=
  apply valid_iff; simpl;
  repeat match goal with
  | |- context [datetime.days_in_month ?y ?m] =>
    let H := fresh "Hdim" in
    pose proof (days_in_month_bounds y m) as H;
    generalize dependent (datetime.days_in_month y m); intros
  end;
  lia.

(** The month range of a selected date, outside December 9999. *)
Lemma month_range_value (s : datetime.date) :
  datetime.valid s = true ->
  ~ (datetime.year s = 9999 /\ datetime.month s = 12) ->
  month_range s =
  Some (datetime.mkdate (datetime.year s) (datetime.month s) 1,
        datetime.mkdate (datetime.year s) (datetime.month s)
          (datetime.days_in_month (datetime.year s) (datetime.month s))).
Proof.
  intros Hv Hmax. destruct s as [y m d].
  apply valid_iff in Hv. simpl in *.
  pose proof (days_in_month_bounds y m) as Hb.
  unfold month_range, datetime.replace_day. simpl.
  rewrite make_valid by solve_valid.
  unfold datetime.add_one_month. simpl.
  destruct (12 <? m + 1) eqn:E.
  - apply Z.ltb_lt in E. assert (m = 12) by lia. subst m.
    replace (12 + 1 - 12) with 1 by lia.
    change (datetime.days_in_month (y + 1) 1) with 31.
    change (Z.min 31 1) with 1.
    rewrite make_valid by solve_valid.
    unfold datetime.sub_one_day. simpl.
    replace (y + 1 - 1) with y by lia.
    rewrite make_valid
      by (apply valid_iff; simpl; rewrite days_in_December; lia).
    reflexivity.
  - apply Z.ltb_ge in E.
    pose proof (days_in_month_bounds y (m + 1)) as Hb'.
    rewrite Z.min_r by lia.
    rewrite make_valid by solve_valid.
    unfold datetime.sub_one_day. simpl.
    assert (Em : (1 <? m + 1) = true) by (apply Z.ltb_lt; lia).
    rewrite Em. replace (m + 1 - 1) with m by lia.
    rewrite make_valid by solve_valid.
    reflexivity.
Qed.

(** In December 9999 the next month is outside the range of [date]. *)
Lemma month_range_overflow (s : datetime.date) :
  datetime.valid s = true ->
  datetime.year s = 9999 -> datetime.month s = 12 ->
  month_range s = None.
Proof.
  intros Hv Hy Hm. destruct s as [y m d]. simpl in *. subst y m.
  reflexivity.
Qed.

(** Texts that start with parts of the same length are compared part by
    part. *)
Lemma compare_app (a b s t : string) :
  String.length a = String.length b ->
  String.compare (a ++ s) (b ++ t) =
  match String.compare a b with
  | Eq => String.compare s t
  | c => c
  end.
Proof.
  revert b. induction a as [|c a IH]; intros [|c' b]; simpl;
    try discriminate; [reflexivity|].
  intros H. destruct (Ascii.compare c c'); [|reflexivity|reflexivity].
  apply IH. congruence.
Qed.

Lemma compare_app_same (p s t : string) :
  String.compare (p ++ s) (p ++ t) = String.compare s t.
Proof.
  rewrite compare_app by reflexivity.
  assert (E : String.compare p p = Eq) by now apply SOT.cmp_eq.
  now rewrite E.
Qed.

Lemma length_app (a b : string) :
  String.length (a ++ b) = (String.length a + String.length b)%nat.
Proof. induction a as [|c a IH]; simpl; congruence. Qed.

Lemma length_zfill w n : String.length (datetime.zfill w n) = w.
Proof.
  revert n. induction w as [|w IH]; intros n; simpl; [reflexivity|].
  rewrite length_app, IH. simpl. lia.
Qed.

(** Digits are ordered as their characters are. *)
Lemma digit_compare x y :
  0 <= x < 10 -> 0 <= y < 10 ->
  Ascii.compare (datetime.digit x) (datetime.digit y) = (x ?= y).
Proof.
  intros Hx Hy. unfold Ascii.compare, datetime.digit.
  rewrite !N_ascii_embedding by lia.
  rewrite <- N2Z.inj_compare, !N2Z.inj_add, !Z2N.id by lia.
  apply Z.add_compare_mono_l.
Qed.

(** Numbers printed with the same width are ordered as their texts are. *)
Lemma zfill_compare w a b :
  0 <= a < 10 ^ Z.of_nat w -> 0 <= b < 10 ^ Z.of_nat w ->
  String.compare (datetime.zfill w a) (datetime.zfill w b) = (a ?= b).
Proof.
  revert a b. induction w as [|w IH]; intros a b Ha Hb.
  - simpl in *. assert (a = 0) by lia. assert (b = 0) by lia. now subst.
  - rewrite Nat2Z.inj_succ, Z.pow_succ_r in Ha, Hb by lia.
    pose proof (Z.div_mod a 10 ltac:(lia)) as Ea.
    pose proof (Z.div_mod b 10 ltac:(lia)) as Eb.
    pose proof (Z.mod_pos_bound a 10 ltac:(lia)) as Ra.
    pose proof (Z.mod_pos_bound b 10 ltac:(lia)) as Rb.
    simpl datetime.zfill.
    rewrite compare_app by now rewrite !length_zfill.
    rewrite IH by (split; [apply Z.div_pos; lia
                          | apply Z.div_lt_upper_bound; lia]).
    simpl. rewrite digit_compare by assumption.
    destruct (Z.compare_spec (a / 10) (b / 10)) as [E|E|E];
      destruct (Z.compare_spec (a mod 10) (b mod 10)) as [F|F|F];
      symmetry;
      first [ apply Z.compare_eq_iff; lia
            | apply Z.compare_lt_iff; lia
            | apply Z.compare_gt_iff; lia ].
Qed.

(** SQLite compares the ISO texts of two dates as Python compares the
    dates. *)
Lemma isoformat_compare (a b : datetime.date) :
  datetime.valid a = true -> datetime.valid b = true ->
  String.compare (datetime.isoformat a) (datetime.isoformat b)
  = datetime.compare a b.
Proof.
  intros Ha Hb. apply valid_iff in Ha, Hb.
  destruct a as [ya ma da], b as [yb mb db]. simpl in Ha, Hb.
  pose proof (days_in_month_bounds ya ma).
  pose proof (days_in_month_bounds yb mb).
  unfold datetime.isoformat, datetime.compare. simpl datetime.year.
  simpl datetime.month. simpl datetime.day.
  rewrite compare_app by now rewrite !length_zfill.
  rewrite zfill_compare by (change (10 ^ Z.of_nat 4) with 10000; lia).
  destruct (ya ?= yb); try reflexivity.
  rewrite compare_app_same.
  rewrite compare_app by now rewrite !length_zfill.
  rewrite zfill_compare by (change (10 ^ Z.of_nat 2) with 100; lia).
  destruct (ma ?= mb); try reflexivity.
  rewrite compare_app_same.
  apply zfill_compare; change (10 ^ Z.of_nat 2) with 100; lia.
Qed.

Lemma isoformat_leb (a b : datetime.date) :
  datetime.valid a = true -> datetime.valid b = true ->
  String.leb (datetime.isoformat a) (datetime.isoformat b) = datetime.leb a b.
Proof.
  intros Ha Hb. unfold String.leb, datetime.leb.
  now rewrite isoformat_compare.
Qed.

(** Distinct dates have distinct ISO texts. *)
Lemma isoformat_inj (a b : datetime.date) :
  datetime.valid a = true -> datetime.valid b = true ->
  datetime.isoformat a = datetime.isoformat b -> a = b.
Proof.
  intros Ha Hb E.
  pose proof (isoformat_compare a b Ha Hb) as H.
  rewrite E in H.
  assert (E' : String.compare (datetime.isoformat b) (datetime.isoformat b) = Eq)
    by now apply SOT.cmp_eq.
  rewrite E' in H.
  destruct a as [ya ma da], b as [yb mb db].
  unfold datetime.compare in H. simpl in H.
  destruct (Z.compare_spec ya yb); try discriminate.
  destruct (Z.compare_spec ma mb); try discriminate.
  destruct (Z.compare_spec da db); try discriminate.
  congruence.
Qed.

Lemma leb_iff (a b : datetime.date) :
  datetime.leb a b = true <->
  datetime.year a < datetime.year b \/
  (datetime.year a = datetime.year b /\
   (datetime.month a < datetime.month b \/
    (datetime.month a = datetime.month b /\ datetime.day a <= datetime.day b))).
Proof.
  unfold datetime.leb, datetime.compare.
  destruct (Z.compare_spec (datetime.year a) (datetime.year b));
    destruct (Z.compare_spec (datetime.month a) (datetime.month b));
    destruct (Z.compare_spec (datetime.day a) (datetime.day b));
    split; intros; try reflexivity; try discriminate; lia.
Qed.

(** A date lies between the first and the last day of a month iff it is a
    day of that month. *)
Lemma in_month_iff y m (x : datetime.date) :
  datetime.valid x = true ->
  (datetime.leb (datetime.mkdate y m 1) x
   && datetime.leb x (datetime.mkdate y m (datetime.days_in_month y m)) = true
   <-> datetime.year x = y /\ datetime.month x = m).
Proof.
  intros Hx. apply valid_iff in Hx.
  rewrite andb_true_iff, !leb_iff. simpl. split.
  - lia.
  - intros [<- <-]. lia.
Qed.

Example month_range_February_leap :
  month_range (datetime.mkdate 2024 2 15)
  = Some (datetime.mkdate 2024 2 1, datetime.mkdate 2024 2 29).
Proof. reflexivity. Qed.

Example month_range_February :
  month_range (datetime.mkdate 2025 2 28)
  = Some (datetime.mkdate 2025 2 1, datetime.mkdate 2025 2 28).
Proof. reflexivity. Qed.

Example month_range_December :
  month_range (datetime.mkdate 2025 12 31)
  = Some (datetime.mkdate 2025 12 1, datetime.mkdate 2025 12 31).
Proof. reflexivity. Qed.

(** C6: for every date the page can select, [month_start] is the first
    and [month_end] the last day of the month of the date; the range scan
    compares ISO texts, which for dates is [month_start <= date <=
    month_end]; and it returns the rows of the table whose text is in that
    range, which for a row that holds a date are the rows of the same month
    and year.  The one month set aside, December 9999, is the last month of
    [datetime.date], far beyond the ten years around today that
    [st.date_input] offers. *)
Theorem month_range_scan (s : datetime.date) (t : table) :
  datetime.valid s = true ->
  ~ (datetime.year s = 9999 /\ datetime.month s = 12) ->
  let month_start := datetime.mkdate (datetime.year s) (datetime.month s) 1 in
  let month_end :=
    datetime.mkdate (datetime.year s) (datetime.month s)
      (datetime.days_in_month (datetime.year s) (datetime.month s)) in
  let in_range text :=
    between (datetime.isoformat month_start) (datetime.isoformat month_end) text in
  month_range s = Some (month_start, month_end) /\
  datetime.valid month_start = true /\
  datetime.valid month_end = true /\
  (forall x, datetime.valid x = true ->
     in_range (datetime.isoformat x)
     = datetime.leb month_start x && datetime.leb x month_end) /\
  (forall x, datetime.valid x = true ->
     (in_range (datetime.isoformat x) = true <->
      datetime.year x = datetime.year s /\ datetime.month x = datetime.month s)) /\
  exists df,
    df_month s t = Some df /\
    (forall r, In r df <-> In r (rows t) /\ in_range (date r) = true) /\
    (forall r x, datetime.valid x = true -> date r = datetime.isoformat x ->
       (In r df <->
        In r (rows t) /\
        datetime.year x = datetime.year s /\ datetime.month x = datetime.month s)).
Proof.
  intros Hs Hmax month_start month_end in_range.
  pose proof (month_range_value s Hs Hmax) as Hr.
  fold month_start month_end in Hr.
  pose proof (proj1 (valid_iff s) Hs) as Hb.
  assert (Hvs : datetime.valid month_start = true) by solve_valid.
  assert (Hve : datetime.valid month_end = true) by solve_valid.
  assert (Hleb : forall x, datetime.valid x = true ->
            in_range (datetime.isoformat x)
            = datetime.leb month_start x && datetime.leb x month_end).
  { intros x Hx. unfold in_range, between.
    now rewrite !isoformat_leb. }
  assert (Hmonth : forall x, datetime.valid x = true ->
            (in_range (datetime.isoformat x) = true <->
             datetime.year x = datetime.year s /\
             datetime.month x = datetime.month s)).
  { intros x Hx. rewrite (Hleb x Hx). now apply in_month_iff. }
  split; [exact Hr|]. split; [exact Hvs|]. split; [exact Hve|].
  split; [exact Hleb|]. split; [exact Hmonth|].
  unfold df_month. rewrite Hr. eexists. split; [reflexivity|].
  assert (Hin : forall r,
            In r (order_by date_asc
                    (select (fun r => between (datetime.isoformat month_start)
                                        (datetime.isoformat month_end) (date r)) t))
            <-> In r (rows t) /\ in_range (date r) = true).
  { intros r. rewrite in_order_by. unfold select. now rewrite filter_In. }
  split; [exact Hin|].
  intros r x Hx E. rewrite Hin, E, (Hmonth x Hx). tauto.
Qed.

Lemma month_range_scan_witness :
  let s := datetime.mkdate 2024 2 15 in
  datetime.valid s = true /\
  ~ (datetime.year s = 9999 /\ datetime.month s = 12) /\
  month_range s
  = Some (datetime.mkdate 2024 2 1, datetime.mkdate 2024 2 29).
Proof.
  intros s.
  assert (Hs : datetime.valid s = true) by reflexivity.
  assert (Hmax : ~ (datetime.year s = 9999 /\ datetime.month s = 12))
    by (simpl; lia).
  split; [exact Hs|]. split; [exact Hmax|].
  exact (proj1 (month_range_scan s legacy_table Hs Hmax)).
Defined.

(** The last month of [datetime.date], which the page never selects: in
    December 9999 the first day of the next month is outside the range of
    [date], the addition raises, and there is no month range and no
    scan. *)
Lemma month_range_December_9999 :
  let s := datetime.mkdate 9999 12 1 in
  datetime.valid s = true /\
  month_range s = None /\
  df_month s legacy_table = None /\
  ~ (forall s, datetime.valid s = true ->
       exists month_start month_end, month_range s = Some (month_start, month_end)).
Proof.
  intros s. split; [reflexivity|]. split; [reflexivity|].
  split; [reflexivity|].
  intros H. destruct (H s eq_refl) as (a & b & E). discriminate E.
Qed.

(** * Further properties of the pages *)

Import DailyView DebugDB Page.

(** ** Reading back what the page wrote *)

Lemma first_amount_None (df : list row) : first_amount df = None <-> df = [].
Proof. destruct df; simpl; split; intros H; congruence. Qed.

Lemma order_by_nil leb (l : list row) : order_by leb l = [] <-> l = [].
Proof.
  split; intros H; [|now subst].
  destruct l as [|x l]; [reflexivity|].
  assert (Hin : In x (order_by leb (x :: l))) by (apply in_order_by; now left).
  rewrite H in Hin. destruct Hin.
Qed.

Lemma filter_nil_iff {A} (p : A -> bool) (l : list A) :
  filter p l = [] <-> forall x, In x l -> p x = false.
Proof.
  induction l as [|x l IH]; simpl; [tauto|].
  destruct (p x) eqn:E; split.
  - discriminate.
  - intros H. specialize (H x (or_introl eq_refl)). congruence.
  - intros H y [<-|Hy]; [exact E | now apply IH].
  - intros H. apply IH. auto.
Qed.

Lemma filter_negb_all {A} (p : A -> bool) (l : list A) :
  filter p l = [] -> filter (fun x => negb (p x)) l = l.
Proof.
  induction l as [|x l IH]; simpl; [reflexivity|].
  destruct (p x); simpl; [discriminate|]. intros H. now rewrite IH.
Qed.

(** [get_existing_amount] answers [None] exactly when the query of the
    category finds no row for the date. *)
Lemma get_existing_amount_None d t m :
  get_existing_amount d t (label m) = None <->
  filter (fun r => on_date d r && current m r) (rows t) = [].
Proof.
  rewrite get_existing_amount_label, first_amount_None. unfold select.
  destruct m; try reflexivity.
  set (l := filter (fun r => on_date d r && current Other r) (rows t)).
  destruct (order_by id_desc l) as [|x rest] eqn:E.
  - apply order_by_nil in E. rewrite E. simpl. tauto.
  - simpl. split; [discriminate|]. intros H. rewrite H in E. discriminate E.
Qed.

(** The page shows the input and the "Save" button of a category exactly
    when no row of the selected date carries the current label of the
    category (or, for [Other], meets the "Other" condition); otherwise it
    shows an amount and the "Delete" button. *)
Theorem save_offered_iff_no_current_row d t m :
  get_existing_amount d t (label m) = None <->
  forall r, In r (rows t) -> on_date d r = true -> current m r = false.
Proof.
  rewrite get_existing_amount_None, filter_nil_iff. split; intros H r Hr.
  - intros Hd. specialize (H r Hr). now rewrite Hd in H.
  - destruct (on_date d r) eqn:Hd; [|reflexivity]. simpl. now apply H.
Qed.

(** When the page offers "Save" for a category, the save deletes nothing:
    a positive amount adds one row after the rows of the table, and an
    amount that is not positive, or an input that is blank or that [float]
    rejects, leaves the table as it is. *)
Theorem save_when_offered d t m a desc :
  get_existing_amount d t (label m) = None ->
  save_entry d t (label m) a desc =
    (if positive a
     then insert (datetime.isoformat d) (full_meal (label m) desc) a t
     else t) /\
  (forall float strip input,
     strip input = "" \/ float input = None ->
     save_entry d t (label m) (parsed float strip input) desc = t).
Proof.
  intros H. apply get_existing_amount_None in H.
  assert (E : delete (fun r => on_date d r && current m r) t = t).
  { unfold delete. rewrite (filter_negb_all _ _ H). now destruct t. }
  split.
  - now rewrite save_entry_label, E.
  - intros float strip input Hin.
    assert (E0 : parsed float strip input = 0%Q)
      by (destruct Hin; [now apply parsed_blank | now apply parsed_invalid]).
    now rewrite save_entry_label, E, E0.
Qed.

Lemma save_when_offered_witness :
  get_existing_amount sept1 legacy_table (label Lunch) = None /\
  save_entry sept1 legacy_table (label Lunch) 80 ""
  = insert "2025-09-01" "Lunch" 80 legacy_table.
Proof.
  split; [reflexivity|].
  exact (proj1 (save_when_offered sept1 legacy_table Lunch 80 "" eq_refl)).
Defined.

(** After a save with a positive amount, [get_existing_amount] for the
    category and the date answers that amount, on every table. *)
Theorem save_then_get d t m a desc :
  positive a = true ->
  get_existing_amount d (save_entry d t (label m) a desc) (label m) = Some a.
Proof.
  intros Hpos.
  destruct (save_entry_one_current_entry d t m a desc Hpos) as [i E].
  rewrite get_existing_amount_label. rewrite E.
  destruct m; reflexivity.
Qed.

Lemma save_then_get_witness :
  positive 50 = true /\
  get_existing_amount sept1 (save_entry sept1 legacy_table (label Breakfast) 50 "")
                      (label Breakfast) = Some 50%Q.
Proof.
  split; [reflexivity|].
  exact (save_then_get sept1 legacy_table Breakfast 50 "" eq_refl).
Defined.

(** ** Tables the interface builds *)

Lemma sorted_ids_filter (p : row -> bool) (l : list row) :
  StronglySorted Z.lt (map id l) ->
  StronglySorted Z.lt (map id (filter p l)).
Proof.
  induction l as [|x l IH]; simpl; intros HS; [constructor|].
  inversion HS as [|? ? HS' HF]; subst.
  destruct (p x); simpl; [|now apply IH].
  constructor; [now apply IH|].
  apply Forall_forall. intros i Hi. apply in_map_iff in Hi.
  destruct Hi as (r & <- & Hr). apply filter_In in Hr.
  apply (proj1 (Forall_forall _ _) HF). apply in_map. tauto.
Qed.

Lemma sorted_ids_snoc (l : list row) (x : row) :
  StronglySorted Z.lt (map id l) ->
  (forall r, In r l -> id r < id x) ->
  StronglySorted Z.lt (map id (l ++ [x])).
Proof.
  induction l as [|y l IH]; simpl; intros HS Hlt.
  - repeat constructor.
  - inversion HS as [|? ? HS' HF]; subst.
    constructor; [apply IH; auto|].
    rewrite map_app. apply Forall_app. split; [exact HF|].
    simpl. constructor; [|constructor]. apply Hlt. now left.
Qed.

Lemma length_filter_filter {A} (p q : A -> bool) (l : list A) :
  (List.length (filter q (filter p l)) <= List.length (filter q l))%nat.
Proof.
  induction l as [|x l IH]; simpl; [lia|].
  destruct (p x); simpl; destruct (q x); simpl; lia.
Qed.

Lemma ids_in_order_delete p t : ids_in_order t -> ids_in_order (delete p t).
Proof.
  intros [HS HB]. split; simpl.
  - now apply sorted_ids_filter.
  - apply Forall_forall. intros r Hr. apply filter_In in Hr.
    apply (proj1 (Forall_forall _ _) HB). tauto.
Qed.

Lemma next_id_above_seq t : seq t < next_id t.
Proof. unfold next_id. lia. Qed.

Lemma ids_in_order_insert dt m a t :
  ids_in_order t -> ids_in_order (insert dt m a t).
Proof.
  intros [HS HB]. pose proof (next_id_above_seq t) as Hseq. split.
  - rewrite rows_insert. apply sorted_ids_snoc; [exact HS|].
    intros r Hr. simpl. now apply next_id_fresh.
  - rewrite rows_insert. apply Forall_app. split.
    + apply Forall_forall. intros r Hr.
      apply (proj1 (Forall_forall _ _) HB) in Hr. simpl. lia.
    + constructor; [|constructor]. simpl.
      pose proof (proj1 (Forall_forall _ _) HB) as HB'.
      unfold next_id in *.
      assert (0 <= fold_right Z.max 0 (map id (rows t))).
      { clear. induction (rows t); simpl; lia. }
      lia.
Qed.

Lemma Forall_rows_delete (P : row -> Prop) p t :
  Forall P (rows t) -> Forall P (rows (delete p t)).
Proof.
  intros H. apply Forall_forall. intros r Hr. apply in_rows_delete in Hr.
  apply (proj1 (Forall_forall _ _) H). tauto.
Qed.

Lemma one_per_key_delete p t : one_per_key t -> one_per_key (delete p t).
Proof.
  intros H dt m. simpl.
  pose proof (length_filter_filter (fun r => negb (p r))
                (fun r => (date r =? dt)%string && current m r) (rows t)).
  specialize (H dt m). lia.
Qed.

Lemma category_eq_dec (m m' : category) : {m = m'} + {m <> m'}.
Proof. destruct m, m'; (now left) || (right; discriminate). Qed.

(** A row that the query of one category reaches is reached by the query
    of no other. *)
Lemma current_unique m m' r :
  current m r = true -> current m' r = true -> m = m'.
Proof.
  intros H H'. destruct (category_eq_dec m m') as [|Hne]; [assumption|].
  apply current_belongs in H.
  rewrite (belongs_other_category m' m r Hne H) in H'. discriminate.
Qed.

Lemma one_per_key_save d t m a desc :
  one_per_key t -> one_per_key (save_entry d t (label m) a desc).
Proof.
  intros H dt m'. rewrite rows_save_entry.
  pose proof (length_filter_filter
                (fun r => negb (on_date d r && current m r))
                (fun r => (date r =? dt)%string && current m' r) (rows t)) as Hle.
  specialize (H dt m').
  destruct (positive a); [|rewrite app_nil_r; lia].
  rewrite filter_app, List.length_app.
  match goal with
  | |- context [filter ?f [?x]] =>
    change (filter f [x]) with (if f x then [x] else []);
    destruct (f x) eqn:Eq
  end; simpl List.length; [|lia].
  apply andb_true_iff in Eq. destruct Eq as [Ed Ec].
  cbn [date] in Ed. apply String.eqb_eq in Ed.
  assert (m = m')
    by (eapply current_unique; [apply current_full_meal | exact Ec]).
  subst m' dt.
  pose proof (filter_filter_negb (fun r => on_date d r && current m r)
                (rows t)) as E.
  unfold on_date in E |- *. rewrite E. simpl. lia.
Qed.

Lemma labels_current_full_meal m desc :
  In (full_meal (label m) desc) ["Breakfast"; "Lunch"; "Dinner"; "Other"] \/
  exists desc', full_meal (label m) desc = "Other: " ++ desc'.
Proof.
  destruct (full_meal_cases (label m) desc) as [E|[_ E]]; rewrite E.
  - left. destruct m; simpl; tauto.
  - right. now exists desc.
Qed.

(** The five properties go from a table to the table after a press. *)
Lemma run_keeps_invariants t x :
  ids_in_order t /\ amounts_positive t /\ labels_current t /\ one_per_key t ->
  ids_in_order (run t x) /\ amounts_positive (run t x) /\
  labels_current (run t x) /\ one_per_key (run t x).
Proof.
  intros (Hid & Ham & Hlab & Hkey).
  destruct x as [d m a desc|d m|d|]; simpl run.
  - split; [|split; [|split]].
    + rewrite save_entry_label. simpl.
      destruct (positive a);
        [apply ids_in_order_insert|]; now apply ids_in_order_delete.
    + unfold amounts_positive. rewrite rows_save_entry.
      apply Forall_app. split.
      * apply (Forall_rows_delete _ (fun r => on_date d r && current m r) t Ham).
      * destruct (positive a) eqn:Hpos; constructor; [|constructor].
        simpl. now apply positive_true.
    + unfold labels_current. rewrite rows_save_entry.
      apply Forall_app. split.
      * apply (Forall_rows_delete _ (fun r => on_date d r && current m r) t Hlab).
      * destruct (positive a); constructor; [|constructor].
        simpl. apply labels_current_full_meal.
    + now apply one_per_key_save.
  - rewrite delete_entry_label. split; [|split; [|split]].
    + now apply ids_in_order_delete.
    + now apply Forall_rows_delete.
    + now apply Forall_rows_delete.
    + now apply one_per_key_delete.
  - unfold clear_all. split; [|split; [|split]].
    + now apply ids_in_order_delete.
    + now apply Forall_rows_delete.
    + now apply Forall_rows_delete.
    + now apply one_per_key_delete.
  - unfold clear_all_data. split; [|split; [|split]].
    + now apply ids_in_order_delete.
    + now apply Forall_rows_delete.
    + now apply Forall_rows_delete.
    + now apply one_per_key_delete.
Qed.

Lemma run_all_keeps_invariants xs t :
  ids_in_order t /\ amounts_positive t /\ labels_current t /\ one_per_key t ->
  ids_in_order (run_all xs t) /\ amounts_positive (run_all xs t) /\
  labels_current (run_all xs t) /\ one_per_key (run_all xs t).
Proof.
  revert t. induction xs as [|x xs IH]; intros t H; simpl; [exact H|].
  apply IH, run_keeps_invariants, H.
Qed.

Lemma empty_table_invariants :
  ids_in_order empty_table /\ amounts_positive empty_table /\
  labels_current empty_table /\ one_per_key empty_table.
Proof.
  split; [split; constructor|].
  split; [constructor|]. split; [constructor|].
  intros dt m. simpl. lia.
Qed.

(** Whatever buttons are pressed, in whatever order and with whatever
    inputs, starting from the empty table: the rowids are distinct, grow
    along the table and stay within the counter; every amount is positive;
    every label is [Breakfast], [Lunch], [Dinner], [Other] or [Other:
    desc]; and there is at most one row per date and category. *)
Theorem interface_tables_well_formed (xs : list action) :
  let t := run_all xs empty_table in
  ids_in_order t /\ NoDup (map id (rows t)) /\
  amounts_positive t /\ labels_current t /\ one_per_key t.
Proof.
  intros t.
  destruct (run_all_keeps_invariants xs empty_table empty_table_invariants)
    as (Hid & Ham & Hlab & Hkey).
  fold t in Hid, Ham, Hlab, Hkey.
  split; [exact Hid|]. split; [|tauto].
  destruct Hid as [HS _]. clear - HS.
  induction HS as [|i l HS IH HF]; constructor; [|exact IH].
  intros Hin. apply (proj1 (Forall_forall _ _) HF) in Hin. lia.
Qed.

(** On a row with a current label, the entries of a category are the rows
    its query reaches. *)
Lemma belongs_current m r :
  In (meal r) ["Breakfast"; "Lunch"; "Dinner"; "Other"] \/
  (exists desc, meal r = "Other: " ++ desc) ->
  belongs m (meal r) = current m r.
Proof.
  intros H. destruct m; try reflexivity;
    unfold belongs, current, meal_is; simpl legacy_label; simpl label;
    (destruct H as [[E|[E|[E|[E|[]]]]]|[desc E]]; rewrite <- E || rewrite E;
     reflexivity).
Qed.

Lemma filter_ext_Forall {A} (P : A -> Prop) (f g : A -> bool) (l : list A) :
  Forall P l -> (forall x, P x -> f x = g x) -> filter f l = filter g l.
Proof.
  intros HF H. apply filter_ext_in. intros x Hx.
  apply H. exact (proj1 (Forall_forall _ _) HF x Hx).
Qed.

(** On the tables the interface builds, a positive save is an upsert keyed
    by date and category: afterwards the category has one entry for the
    date, current and legacy labels counted, it holds the amount, and the
    page reads that amount back. *)
Theorem interface_save_is_upsert (xs : list action) d m a desc :
  positive a = true ->
  let t' := run (run_all xs empty_table) (Save d m a desc) in
  (exists r, entries d m t' = [r] /\ amount r = a /\
             date r = datetime.isoformat d) /\
  get_existing_amount d t' (label m) = Some a.
Proof.
  intros Hpos t'.
  assert (Hlab : labels_current t').
  { pose proof (run_all_keeps_invariants xs empty_table empty_table_invariants) as H.
    apply (run_keeps_invariants _ (Save d m a desc)) in H. tauto. }
  destruct (save_entry_one_current_entry d (run_all xs empty_table) m a
              (passed_desc m desc) Hpos) as [i E].
  change (save_entry d (run_all xs empty_table) (label m) a (passed_desc m desc))
    with t' in E. unfold select in E.
  split.
  - eexists. unfold entries.
    rewrite (filter_ext_Forall _ _ (fun r => on_date d r && current m r) _ Hlab)
      by (intros r Hr; now rewrite (belongs_current m r Hr)).
    rewrite E. repeat split.
  - rewrite get_existing_amount_label. unfold select. rewrite E.
    destruct m; reflexivity.
Qed.

Lemma interface_save_is_upsert_witness :
  positive 50 = true /\
  get_existing_amount sept1
    (run (run_all [Save sept1 Breakfast 30 ""; Save sept1 Other 20 "tea"]
                  empty_table)
         (Save sept1 Breakfast 50 ""))
    (label Breakfast) = Some 50%Q.
Proof.
  split; [reflexivity|].
  exact (proj2 (interface_save_is_upsert
                  [Save sept1 Breakfast 30 ""; Save sept1 Other 20 "tea"]
                  sept1 Breakfast 50 "" eq_refl)).
Defined.

(** ** Rowids *)

Lemma run_seq_grows t x : seq t <= seq (run t x).
Proof.
  destruct x as [d m a desc|d m|d|]; simpl run;
    [|rewrite delete_entry_label; simpl; lia | simpl; lia | simpl; lia].
  rewrite save_entry_label. simpl.
  destruct (positive a); simpl; [|lia].
  pose proof (next_id_above_seq
                (delete (fun r => on_date d r && current m r) t)) as H.
  simpl in H. lia.
Qed.

(** A row of the table after a press was in the table before, or has a
    rowid above the counter the table had. *)
Lemma run_rows_old_or_new t x r :
  In r (rows (run t x)) -> In r (rows t) \/ seq t < id r.
Proof.
  destruct x as [d m a desc|d m|d|]; simpl run.
  - rewrite rows_save_entry. intros H. apply in_app_or in H.
    destruct H as [H|H]; [apply filter_In in H; tauto|].
    destruct (positive a); [|destruct H].
    destruct H as [<-|[]]. right. simpl.
    pose proof (next_id_above_seq
                  (delete (fun r => on_date d r && current m r) t)) as H.
    exact H.
  - rewrite delete_entry_label, in_rows_delete. tauto.
  - unfold clear_all. rewrite in_rows_delete. tauto.
  - unfold clear_all_data. rewrite in_rows_delete. tauto.
Qed.

Lemma run_all_rows_old_or_new xs t r :
  In r (rows (run_all xs t)) -> In r (rows t) \/ seq t < id r.
Proof.
  revert t. induction xs as [|x xs IH]; intros t H; simpl in H; [now left|].
  destruct (IH _ H) as [H'|H'].
  - exact (run_rows_old_or_new t x r H').
  - right. pose proof (run_seq_grows t x). lia.
Qed.

Lemma NoDup_map_inj {A B} (f : A -> B) (l : list A) (x y : A) :
  NoDup (map f l) -> In x l -> In y l -> f x = f y -> x = y.
Proof.
  induction l as [|z l IH]; simpl; intros HN Hx Hy E; [destruct Hx|].
  inversion HN as [|? ? Hz HN']; subst.
  destruct Hx as [->|Hx], Hy as [->|Hy]; try reflexivity.
  - exfalso. apply Hz. rewrite E. now apply in_map.
  - exfalso. apply Hz. rewrite <- E. now apply in_map.
  - now apply IH.
Qed.

(** A rowid is never given twice: a row found under some rowid after any
    further presses, deletions and "Clear All Data" included, is the row
    that had that rowid before. *)
Theorem rowids_never_reused (xs ys : list action) (r r' : row) :
  let t := run_all xs empty_table in
  In r (rows t) -> In r' (rows (run_all ys t)) -> id r = id r' -> r = r'.
Proof.
  intros t Hr Hr' E.
  destruct (run_all_keeps_invariants xs empty_table empty_table_invariants)
    as ([HS HB] & _).
  fold t in HS, HB.
  pose proof (proj1 (Forall_forall _ _) HB r Hr) as Hb. cbv beta in Hb.
  destruct (run_all_rows_old_or_new ys t r' Hr') as [Hold|Hnew]; [|lia].
  apply (NoDup_map_inj id (rows t) r r'); try assumption.
  clear - HS. induction HS as [|i l HS IH HF]; constructor; [|exact IH].
  intros Hin. apply (proj1 (Forall_forall _ _) HF) in Hin. lia.
Qed.

Lemma rowids_never_reused_witness :
  let xs := [Save sept1 Breakfast 30 ""; Save sept1 Lunch 80 ""] in
  let ys := [Delete sept1 Lunch; ClearAllData; Save sept1 Dinner 60 ""] in
  let r := mkrow 1 "2025-09-01" "Breakfast" 30 in
  let r' := mkrow 3 "2025-09-01" "Dinner" 60 in
  In r (rows (run_all xs empty_table)) /\
  In r' (rows (run_all ys (run_all xs empty_table))) /\
  (id r = id r' -> r = r').
Proof.
  intros xs ys r r'.
  assert (H1 : In r (rows (run_all xs empty_table))) by (vm_compute; tauto).
  assert (H2 : In r' (rows (run_all ys (run_all xs empty_table))))
    by (vm_compute; tauto).
  split; [exact H1|]. split; [exact H2|].
  exact (rowids_never_reused xs ys r r' H1 H2).
Defined.

(** ** How the deletions and the save compose *)

Lemma filter_comm {A} (p q : A -> bool) (l : list A) :
  filter p (filter q l) = filter q (filter p l).
Proof.
  induction l as [|x l IH]; simpl; [reflexivity|].
  destruct (p x) eqn:Ep, (q x) eqn:Eq; simpl;
    rewrite ?Ep, ?Eq, IH; reflexivity.
Qed.

Lemma filter_idem {A} (p : A -> bool) (l : list A) :
  filter p (filter p l) = filter p l.
Proof.
  induction l as [|x l IH]; simpl; [reflexivity|].
  destruct (p x) eqn:E; simpl; rewrite ?E, IH; reflexivity.
Qed.

Lemma filter_all {A} (p : A -> bool) (l : list A) :
  (forall x, In x l -> p x = true) -> filter p l = l.
Proof.
  induction l as [|x l IH]; simpl; intros H; [reflexivity|].
  rewrite (H x (or_introl eq_refl)), IH; auto.
Qed.

Lemma delete_delete_comm p q t :
  delete p (delete q t) = delete q (delete p t).
Proof. unfold delete; simpl. now rewrite filter_comm. Qed.

(** Deleting a category twice is deleting it once; deletions of two
    categories, on the same date or on two dates, can be made in either
    order; "Clear All Today's Entries" after or before the deletion of a
    category of that date is "Clear All Today's Entries" alone; and a save
    after the deletion of its category is the save alone. *)
Theorem deletions_compose d d' t m m' a desc :
  delete_entry d (delete_entry d t (label m)) (label m)
  = delete_entry d t (label m) /\
  delete_entry d (delete_entry d' t (label m')) (label m)
  = delete_entry d' (delete_entry d t (label m)) (label m') /\
  clear_all d (delete_entry d t (label m)) = clear_all d t /\
  delete_entry d (clear_all d t) (label m) = clear_all d t /\
  save_entry d (delete_entry d t (label m)) (label m) a desc
  = save_entry d t (label m) a desc.
Proof.
  assert (Hidem : delete_entry d (delete_entry d t (label m)) (label m)
                  = delete_entry d t (label m)).
  { rewrite !delete_entry_label. unfold delete; simpl.
    now rewrite (filter_idem (fun r => negb (on_date d r && current m r))). }
  split; [exact Hidem|]. split; [|split; [|split]].
  - rewrite !delete_entry_label. apply delete_delete_comm.
  - rewrite delete_entry_label. unfold clear_all, delete; simpl. f_equal.
    apply (filter_incl_sub (on_date d) (fun r => on_date d r && current m r)).
    intros r H. apply andb_true_iff in H. tauto.
  - rewrite delete_entry_label. unfold clear_all, delete; simpl. f_equal.
    apply filter_all. intros r Hr. apply filter_In in Hr.
    destruct Hr as [_ Hr]. apply negb_true_iff in Hr. now rewrite Hr.
  - rewrite !save_entry_label. rewrite <- !delete_entry_label.
    now rewrite Hidem.
Qed.

(** ** One date at a time *)

Lemma filter_filter_keep {A} (p q : A -> bool) (l : list A) :
  (forall x, p x = true -> q x = true) ->
  filter p (filter q l) = filter p l.
Proof.
  intros H. induction l as [|x l IH]; simpl; [reflexivity|].
  destruct (q x) eqn:Eq; simpl.
  - now rewrite IH.
  - destruct (p x) eqn:Ep; [|exact IH].
    rewrite (H x Ep) in Eq. discriminate.
Qed.

Lemma on_date_other d d' r :
  datetime.valid d = true -> datetime.valid d' = true -> d <> d' ->
  on_date d' r = true -> on_date d r = false.
Proof.
  intros Hd Hd' Hne H. unfold on_date in *.
  apply String.eqb_eq in H. apply String.eqb_neq. intros E.
  apply Hne. apply isoformat_inj; congruence.
Qed.

(** A press for one date changes neither the rows of another date nor,
    then, its daily total and what the page reads for it. *)
Theorem other_dates_untouched d d' t m a desc :
  datetime.valid d = true -> datetime.valid d' = true -> d <> d' ->
  let same t' :=
    select (on_date d') t' = select (on_date d') t /\
    (forall pd, daily_total pd d' t' = daily_total pd d' t) /\
    forall m', get_existing_amount d' t' (label m')
               = get_existing_amount d' t (label m') in
  same (save_entry d t (label m) a desc) /\
  same (delete_entry d t (label m)) /\
  same (clear_all d t).
Proof.
  intros Hd Hd' Hne same.
  assert (Hsame : forall t', select (on_date d') t' = select (on_date d') t ->
                             same t').
  { intros t' E. split; [exact E|]. split.
    - intros pd. unfold daily_total. now rewrite E.
    - intros m'. rewrite !get_existing_amount_label. unfold select in *.
      assert (E' : filter (fun r => on_date d' r && current m' r) (rows t')
                   = filter (fun r => on_date d' r && current m' r) (rows t)).
      { assert (F : forall l,
                  filter (fun r => on_date d' r && current m' r) l
                  = filter (fun r => current m' r) (filter (on_date d') l)).
        { clear. induction l as [|x l IH]; simpl; [reflexivity|].
          destruct (on_date d' x); simpl; [|exact IH].
          destruct (current m' x); simpl; now rewrite IH. }
        now rewrite !F, E. }
      now rewrite E'. }
  assert (Hdel : forall c : row -> bool,
            filter (on_date d')
                   (filter (fun r => negb (on_date d r && c r)) (rows t))
            = filter (on_date d') (rows t)).
  { intros c. apply filter_filter_keep. intros r Hr.
    now rewrite (on_date_other d d' r Hd Hd' Hne Hr). }
  split; [|split]; apply Hsame; unfold select.
  - rewrite rows_save_entry, filter_app, Hdel.
    destruct (positive a); [|apply app_nil_r].
    match goal with
    | |- context [filter (on_date d') [?x]] =>
      assert (Ex : filter (on_date d') [x] = [])
    end.
    { simpl. destruct (on_date d' _) eqn:E; [|reflexivity].
      apply (on_date_other d d' _ Hd Hd' Hne) in E.
      unfold on_date in E. cbn [date] in E. rewrite String.eqb_refl in E.
      discriminate E. }
    rewrite Ex. apply app_nil_r.
  - rewrite delete_entry_label. apply Hdel.
  - unfold clear_all, delete; simpl.
    apply filter_filter_keep. intros r Hr.
    now rewrite (on_date_other d d' r Hd Hd' Hne Hr).
Qed.

Lemma other_dates_untouched_witness :
  let d' := datetime.mkdate 2025 9 2 in
  datetime.valid sept1 = true /\ datetime.valid d' = true /\ sept1 <> d' /\
  daily_total arithmetic.binary64 d' (clear_all sept1 legacy_table)
  = daily_total arithmetic.binary64 d' legacy_table.
Proof.
  intros d'.
  assert (H1 : datetime.valid sept1 = true) by reflexivity.
  assert (H2 : datetime.valid d' = true) by reflexivity.
  assert (H3 : sept1 <> d') by discriminate.
  split; [exact H1|]. split; [exact H2|]. split; [exact H3|].
  exact (proj1 (proj2 (proj2 (proj2
           (other_dates_untouched sept1 d' legacy_table Breakfast 0 ""
              H1 H2 H3)))) arithmetic.binary64).
Defined.

(** ** Dates as text *)

(** The ISO text of a date has ten characters, is another text for
    another date, and texts compare as the dates do: text equality and
    text order in the queries are date equality and date order. *)
Theorem isoformat_order_embedding (a b : datetime.date) :
  datetime.valid a = true -> datetime.valid b = true ->
  String.length (datetime.isoformat a) = 10%nat /\
  (datetime.isoformat a = datetime.isoformat b <-> a = b) /\
  String.compare (datetime.isoformat a) (datetime.isoformat b)
  = datetime.compare a b /\
  ((datetime.isoformat a =? datetime.isoformat b)%string = true <-> a = b).
Proof.
  intros Ha Hb.
  assert (Hinj : datetime.isoformat a = datetime.isoformat b <-> a = b)
    by (split; [now apply isoformat_inj | now intros ->]).
  split.
  - unfold datetime.isoformat. rewrite !length_app, !length_zfill. reflexivity.
  - split; [exact Hinj|]. split; [now apply isoformat_compare|].
    now rewrite String.eqb_eq.
Qed.

Lemma isoformat_order_embedding_witness :
  let a := datetime.mkdate 2025 9 30 in
  let b := datetime.mkdate 2025 10 1 in
  datetime.valid a = true /\ datetime.valid b = true /\
  String.compare (datetime.isoformat a) (datetime.isoformat b) = Lt.
Proof.
  intros a b.
  split; [reflexivity|]. split; [reflexivity|].
  rewrite (proj1 (proj2 (proj2
             (isoformat_order_embedding a b eq_refl eq_refl)))).
  reflexivity.
Defined.

Lemma lower_digit n : 0 <= n < 10 -> lower_char (datetime.digit n) = datetime.digit n.
Proof.
  intros H. unfold lower_char, datetime.digit.
  rewrite N_ascii_embedding by lia.
  assert (E : (65 <=? 48 + Z.to_N n)%N = false) by (apply N.leb_gt; lia).
  now rewrite E.
Qed.

Lemma lower_zfill w n : lower (datetime.zfill w n) = datetime.zfill w n.
Proof.
  revert n. induction w as [|w IH]; intros n; simpl; [reflexivity|].
  rewrite lower_app, IH. simpl.
  now rewrite lower_digit by (apply Z.mod_pos_bound; lia).
Qed.

(** Case folding leaves the ISO text of a date as it is. *)
Lemma lower_isoformat d : lower (datetime.isoformat d) = datetime.isoformat d.
Proof.
  unfold datetime.isoformat. rewrite !lower_app, !lower_zfill. reflexivity.
Qed.

Lemma prefix_app (a b s t : string) :
  String.length a = String.length b ->
  prefix (a ++ s) (b ++ t) = (a =? b)%string && prefix s t.
Proof.
  revert b. induction a as [|c a IH]; intros [|c' b]; simpl;
    try discriminate; [reflexivity|].
  intros H. rewrite IH by congruence.
  destruct (Ascii.eqb_spec c c') as [->|Hne].
  - destruct (ascii_dec c' c'); [reflexivity|congruence].
  - destruct (ascii_dec c c'); [congruence|reflexivity].
Qed.

Lemma zfill_eqb w a b :
  0 <= a < 10 ^ Z.of_nat w -> 0 <= b < 10 ^ Z.of_nat w ->
  (datetime.zfill w a =? datetime.zfill w b)%string = (a =? b).
Proof.
  intros Ha Hb. pose proof (zfill_compare w a b Ha Hb) as H.
  destruct (Z.eqb_spec a b) as [->|Hne]; [apply String.eqb_refl|].
  apply String.eqb_neq. intros E. rewrite E in H.
  assert (E' : String.compare (datetime.zfill w b) (datetime.zfill w b) = Eq)
    by now apply SOT.cmp_eq.
  rewrite E' in H. symmetry in H. apply Z.compare_eq_iff in H. contradiction.
Qed.

(** The test [date LIKE '2025-09%'] on the text of a date. *)
Lemma like_September (x : datetime.date) :
  datetime.valid x = true ->
  like_prefix "2025-09" (datetime.isoformat x)
  = (datetime.year x =? 2025) && (datetime.month x =? 9).
Proof.
  intros Hx. apply valid_iff in Hx.
  pose proof (days_in_month_bounds (datetime.year x) (datetime.month x)).
  unfold like_prefix. rewrite lower_isoformat.
  change (lower "2025-09") with (datetime.zfill 4 2025 ++ "-" ++ datetime.zfill 2 9 ++ "").
  unfold datetime.isoformat.
  rewrite prefix_app by now rewrite !length_zfill.
  rewrite zfill_eqb by (change (10 ^ Z.of_nat 4) with 10000; lia).
  rewrite (prefix_app "-" "-") by reflexivity.
  rewrite prefix_app by now rewrite !length_zfill.
  rewrite zfill_eqb by (change (10 ^ Z.of_nat 2) with 100; lia).
  simpl prefix. simpl String.eqb.
  rewrite andb_true_r, (Z.eqb_sym 2025), (Z.eqb_sym 9). reflexivity.
Qed.

(** The checkbox "Filter to September Only" of the page Debug DB shows,
    among the rows that hold a date, those of September 2025 and no
    other: the rows the Monthly Summary scans for a date of that month. *)
Theorem September_filter (t : table) (r : row) (x s : datetime.date) :
  datetime.valid x = true -> date r = datetime.isoformat x ->
  datetime.valid s = true ->
  datetime.year s = 2025 -> datetime.month s = 9 ->
  (In r (df_sept t) <->
   In r (rows t) /\ datetime.year x = 2025 /\ datetime.month x = 9) /\
  exists df, df_month s t = Some df /\ (In r (df_sept t) <-> In r df).
Proof.
  intros Hx E Hs Hy Hm.
  assert (Hsept : In r (df_sept t) <->
            In r (rows t) /\ datetime.year x = 2025 /\ datetime.month x = 9).
  { unfold df_sept, select. rewrite in_order_by, filter_In, E.
    rewrite (like_September x Hx), andb_true_iff, !Z.eqb_eq. tauto. }
  split; [exact Hsept|].
  unfold df_month.
  rewrite (month_range_value s Hs) by lia. eexists. split; [reflexivity|].
  rewrite Hsept. unfold select. rewrite in_order_by, filter_In, E.
  unfold between. rewrite !isoformat_leb; try assumption; try solve_valid.
  rewrite (in_month_iff _ _ x Hx). rewrite Hy, Hm. tauto.
Qed.

Lemma September_filter_witness :
  let x := datetime.mkdate 2025 9 1 in
  let s := datetime.mkdate 2025 9 15 in
  datetime.valid x = true /\ date morning_row = datetime.isoformat x /\
  datetime.valid s = true /\ datetime.year s = 2025 /\ datetime.month s = 9 /\
  (In morning_row (df_sept legacy_table) <->
   In morning_row (rows legacy_table) /\
   datetime.year x = 2025 /\ datetime.month x = 9).
Proof.
  intros x s.
  repeat (split; [reflexivity|]).
  exact (proj1 (September_filter legacy_table morning_row x s
                  eq_refl eq_refl eq_refl eq_refl eq_refl)).
Defined.

(** ** More on the meal groups *)

Lemma lower_char_idem c : lower_char (lower_char c) = lower_char c.
Proof. destruct c as [[] [] [] [] [] [] [] []]; reflexivity. Qed.

Lemma lower_idem s : lower (lower s) = lower s.
Proof.
  induction s as [|c s IH]; simpl; [reflexivity|].
  now rewrite lower_char_idem, IH.
Qed.

Lemma prefix_app_r w s q : prefix w s = true -> prefix w (s ++ q) = true.
Proof.
  revert s. induction w as [|c w IH]; intros [|c' s]; simpl;
    try discriminate; try reflexivity.
  - now destruct q.
  - destruct (ascii_dec c c'); [apply IH | discriminate].
Qed.

Lemma contains_app_r w s q : contains w s = true -> contains w (s ++ q) = true.
Proof.
  induction s as [|c s IH]; simpl; intros H.
  - rewrite orb_false_r in H. destruct w; [|discriminate].
    now destruct q.
  - apply orb_true_iff in H. apply orb_true_iff. destruct H as [H|H].
    + left. exact (prefix_app_r w (String c s) q H).
    + right. now apply IH.
Qed.

Lemma contains_app_l w p s : contains w s = true -> contains w (p ++ s) = true.
Proof.
  induction p as [|c p IH]; simpl; intros H; [exact H|].
  apply orb_true_iff. right. now apply IH.
Qed.

Lemma any_in_around ws p s q :
  any_in ws s = true -> any_in ws (p ++ s ++ q) = true.
Proof.
  unfold any_in. rewrite !existsb_exists. intros (w & Hw & H).
  exists w. split; [exact Hw|]. now apply contains_app_l, contains_app_r.
Qed.

(** The group of a label does not depend on the case of its ASCII letters,
    and text added before and after a label keeps it in [Breakfast] when it
    was there and out of [Other] when it was in a named group. *)
Theorem categorize_meal_case_and_context (meal p q : string) :
  categorize_meal (lower meal) = categorize_meal meal /\
  (forall meal', lower meal' = lower meal ->
                 categorize_meal meal' = categorize_meal meal) /\
  (categorize_meal meal = "Breakfast" ->
   categorize_meal (p ++ meal ++ q) = "Breakfast") /\
  (categorize_meal meal <> "Other" ->
   categorize_meal (p ++ meal ++ q) <> "Other").
Proof.
  split; [unfold categorize_meal; now rewrite lower_idem|].
  split; [intros meal' E; unfold categorize_meal; now rewrite E|].
  split.
  - unfold categorize_meal. rewrite !lower_app.
    destruct (any_in ["breakfast"; "morning"] (lower meal)) eqn:E.
    + intros _. now rewrite (any_in_around _ (lower p) (lower meal) (lower q) E).
    + destruct (any_in ["lunch"; "afternoon"] (lower meal));
        [discriminate|].
      destruct (any_in ["dinner"; "evening"] (lower meal)); discriminate.
  - rewrite !categorize_meal_Other_iff. unfold no_keyword.
    rewrite !negb_true_iff, !lower_app. intros H H'. apply H.
    destruct (any_in keywords (lower meal)) eqn:E; [|reflexivity].
    now rewrite (any_in_around _ (lower p) (lower meal) (lower q) E) in H'.
Qed.

Lemma categorize_meal_case_and_context_witness :
  categorize_meal "Morning" = "Breakfast" /\
  categorize_meal ("Other: " ++ "Morning" ++ " tea") = "Breakfast".
Proof.
  split; [reflexivity|].
  exact (proj1 (proj2 (proj2
           (categorize_meal_case_and_context "Morning" "Other: " " tea")))
           eq_refl).
Defined.

(** ** The listings *)

Lemma insert_sorted_perm leb r l : Permutation (insert_sorted leb r l) (r :: l).
Proof.
  induction l as [|y l IH]; simpl; [apply Permutation_refl|].
  destruct (leb r y); [apply Permutation_refl|].
  apply Permutation_trans with (y :: r :: l);
    [now apply perm_skip | apply perm_swap].
Qed.

(** [ORDER BY] returns the rows it is given, each as often as given. *)
Lemma order_by_perm leb l : Permutation (order_by leb l) l.
Proof.
  induction l as [|x l IH]; simpl; [constructor|].
  apply Permutation_trans with (x :: order_by leb l);
    [apply insert_sorted_perm | now apply perm_skip].
Qed.

Lemma insert_sorted_sorted leb r l :
  (forall a b, leb a b = true \/ leb b a = true) ->
  Sorted (fun a b => leb a b = true) l ->
  Sorted (fun a b => leb a b = true) (insert_sorted leb r l).
Proof.
  intros Htot. induction l as [|x l IH]; simpl; intros HS.
  - repeat constructor.
  - destruct (leb r x) eqn:E.
    + constructor; [exact HS | now constructor].
    + inversion HS as [|? ? HS' HR]; subst.
      constructor; [now apply IH|].
      destruct l as [|y l]; simpl.
      * constructor. destruct (Htot r x); congruence.
      * destruct (leb r y).
        -- constructor. destruct (Htot r x); congruence.
        -- inversion HR; subst. now constructor.
Qed.

(** [ORDER BY] returns its rows in order, for an order that compares any
    two rows. *)
Lemma order_by_sorted leb l :
  (forall a b, leb a b = true \/ leb b a = true) ->
  Sorted (fun a b => leb a b = true) (order_by leb l).
Proof.
  intros Htot. induction l as [|x l IH]; simpl; [constructor|].
  now apply insert_sorted_sorted.
Qed.

Lemma date_desc_id_desc_total a b :
  date_desc_id_desc a b = true \/ date_desc_id_desc b a = true.
Proof.
  unfold date_desc_id_desc.
  rewrite (String.compare_antisym (date a) (date b)).
  destruct (String.compare (date b) (date a)); simpl; auto.
  destruct (Z.le_ge_cases (id b) (id a)) as [H|H];
    [left | right]; now apply Z.leb_le.
Qed.

(** "Today's Entries" lists the rows of the selected date, each once, in
    the order of their labels.  The page Debug DB lists every row of the
    table once, later dates first and, within a date, larger rowids
    first. *)
Theorem listings_complete_and_ordered d t :
  Permutation (df_entries d t) (select (on_date d) t) /\
  Sorted (fun a b => String.leb (meal a) (meal b) = true) (df_entries d t) /\
  Permutation (df_all t) (rows t) /\
  Sorted (fun a b => date_desc_id_desc a b = true) (df_all t).
Proof.
  split; [apply order_by_perm|]. split.
  { apply (order_by_sorted meal_asc). intros a b. apply String.leb_total. }
  split.
  { unfold df_all, select. rewrite (filter_all (fun _ => true)) by auto.
    apply order_by_perm. }
  apply (order_by_sorted date_desc_id_desc), date_desc_id_desc_total.
Qed.

(** ** The two pages on the same table *)

Lemma perm_filter {A} (f : A -> bool) (l l' : list A) :
  Permutation l l' -> Permutation (filter f l) (filter f l').
Proof.
  induction 1 as [|x l l' HP IH|x y l|l l' l'' HP1 IH1 HP2 IH2]; simpl.
  - constructor.
  - destruct (f x); [now constructor | exact IH].
  - destruct (f x), (f y); try apply Permutation_refl. apply perm_swap.
  - now apply Permutation_trans with (filter f l').
Qed.

Lemma run_keeps_dates_iso t x :
  dated x = true -> dates_iso t -> dates_iso (run t x).
Proof.
  intros Hx H. destruct x as [d m a desc|d m|d|]; simpl run.
  - unfold dates_iso. rewrite rows_save_entry. apply Forall_app. split.
    + apply (Forall_rows_delete _ (fun r => on_date d r && current m r) t H).
    + destruct (positive a); constructor; [|constructor].
      exists d. split; [exact Hx | reflexivity].
  - rewrite delete_entry_label. now apply Forall_rows_delete.
  - now apply Forall_rows_delete.
  - now apply Forall_rows_delete.
Qed.

(** On the tables the interface builds, every row holds the ISO text of a
    date, so that each row is in the scan of the Monthly Summary for the
    dates of its own month and for no other date. *)
Theorem interface_rows_in_their_month (xs : list action) (r : row) :
  forallb dated xs = true ->
  In r (rows (run_all xs empty_table)) ->
  exists x,
    datetime.valid x = true /\ date r = datetime.isoformat x /\
    forall s, datetime.valid s = true ->
      ~ (datetime.year s = 9999 /\ datetime.month s = 12) ->
      exists df,
        df_month s (run_all xs empty_table) = Some df /\
        (In r df <-> datetime.year x = datetime.year s /\
                     datetime.month x = datetime.month s).
Proof.
  intros Hxs Hr.
  assert (Hiso : forall t, dates_iso t -> dates_iso (run_all xs t)).
  { revert Hxs. clear. induction xs as [|x xs IH]; simpl; intros Hxs t H;
      [exact H|].
    apply andb_true_iff in Hxs. destruct Hxs as [Hx Hxs].
    apply (IH Hxs). now apply run_keeps_dates_iso. }
  assert (H0 : dates_iso empty_table) by constructor.
  pose proof (proj1 (Forall_forall _ _) (Hiso _ H0) r Hr) as (x & Hx & E).
  exists x. split; [exact Hx|]. split; [exact E|].
  intros s Hs Hmax.
  pose proof (proj1 (valid_iff s) Hs) as Hb.
  unfold df_month. rewrite (month_range_value s Hs Hmax).
  eexists. split; [reflexivity|].
  unfold select. rewrite in_order_by, filter_In, E. unfold between.
  rewrite !isoformat_leb; try assumption; try solve_valid.
  rewrite (in_month_iff _ _ x Hx). tauto.
Qed.

Lemma interface_rows_in_their_month_witness :
  let xs := [Save sept1 Breakfast 30 ""] in
  let r := mkrow 1 "2025-09-01" "Breakfast" 30 in
  forallb dated xs = true /\
  In r (rows (run_all xs empty_table)) /\
  exists x, datetime.valid x = true /\ date r = datetime.isoformat x.
Proof.
  intros xs r.
  assert (H1 : forallb dated xs = true) by reflexivity.
  assert (H2 : In r (rows (run_all xs empty_table))) by (vm_compute; tauto).
  split; [exact H1|]. split; [exact H2|].
  destruct (interface_rows_in_their_month xs r H1 H2) as (x & Hx & E & _).
  exists x. split; assumption.
Defined.

(** ** Monthly Summary: groups and sums *)

Section GroupByFacts.
Context {K V : Type}.
Variable eq_dec : forall a b : K, {a = b} + {a <> b}.
Variable leb : K -> K -> bool.
Variable sum_of_group : list V -> V.










End GroupByFacts.





Section ExactSums.
Variable pd : pandas.library.
Variable eqv : pandas.number pd -> pandas.number pd -> Prop.
Variable add : pandas.number pd -> pandas.number pd -> pandas.number pd.
Hypothesis Hexact : pandas.exact_sums pd eqv add.

#[local] Instance eqv_Equivalence : Equivalence eqv.
Proof.
  destruct Hexact as (Hr & Hs & Ht & _).
  split; [exact Hr | exact Hs | exact Ht].
Qed.

#[local] Instance add_Proper : Proper (eqv ==> eqv ==> eqv) add.
Proof.
  destruct Hexact as (_ & _ & _ & Hp & _).
  intros a a' Ha b b' Hb. now apply Hp.
Qed.


Lemma add_assoc_exact a b c : eqv (add a (add b c)) (add (add a b) c).
Proof. apply Hexact. Qed.

Lemma add_zero_exact a : eqv (add (pandas.of_int pd 0) a) a.
Proof. apply Hexact. Qed.

Lemma total_app l1 l2 :
  eqv (fold_right add (pandas.of_int pd 0) (l1 ++ l2)%list)
      (add (fold_right add (pandas.of_int pd 0) l1)
           (fold_right add (pandas.of_int pd 0) l2)).
Proof.
  induction l1 as [|x l1 IH]; simpl.
  - now rewrite add_zero_exact.
  - now rewrite IH, add_assoc_exact.
Qed.




End ExactSums.





(** Four amounts of one day whose exact sum is 220: the daily total of the
    program is the float64 number above 220, and the page warns. *)
Example daily_total_above_220 :
  let t := mktable [mkrow 1 "2025-09-01" "Breakfast" (3748 # 100);
                    mkrow 2 "2025-09-01" "Lunch" (2989 # 100);
                    mkrow 3 "2025-09-01" "Dinner" (10423 # 100);
                    mkrow 4 "2025-09-01" "Other" (484 # 10)] 4 in
  (daily_total arithmetic.exact sept1 t == 220)%Q /\
  daily_feedback arithmetic.exact (daily_total arithmetic.exact sept1 t) = OnTrack /\
  PrimFloat.ltb (arithmetic.float_of_Z 220)
                (daily_total arithmetic.binary64 sept1 t) = true /\
  daily_feedback arithmetic.binary64 (daily_total arithmetic.binary64 sept1 t) = Over.
Proof. vm_compute. repeat split. Qed.

(** ** The daily total *)

Lemma select_save_entry d t m a desc :
  positive a = true ->
  select (on_date d) (save_entry d t (label m) a desc)
  = (select (on_date d) (delete_entry d t (label m))
     ++ [mkrow (next_id (delete_entry d t (label m)))
               (datetime.isoformat d) (full_meal (label m) desc) a])%list.
Proof.
  intros Hpos. unfold select.
  rewrite rows_save_entry, Hpos, delete_entry_label, filter_app.
  f_equal. simpl. unfold on_date at 1. cbn [date].
  now rewrite String.eqb_refl.
Qed.

Lemma select_delete_entry_split d t m :
  Permutation (select (on_date d) t)
    (select (on_date d) (delete_entry d t (label m))
     ++ filter (fun r => on_date d r && current m r) (rows t))%list.
Proof.
  rewrite delete_entry_label. unfold select, delete; simpl.
  induction (rows t) as [|x l IH]; simpl; [constructor|].
  destruct (on_date d x) eqn:Ed; simpl.
  - destruct (current m x); simpl.
    + now apply Permutation_cons_app.
    + rewrite Ed. now apply perm_skip.
  - rewrite Ed. exact IH.
Qed.

Section ExactDailyTotal.
Variable pd : pandas.library.
Variable eqv : pandas.number pd -> pandas.number pd -> Prop.
Variable add : pandas.number pd -> pandas.number pd -> pandas.number pd.
Hypothesis Hexact : pandas.exact_sums pd eqv add.

(** With exact sums the daily total is the sum of the amounts of the
    date, also when there is none. *)
Lemma daily_total_exact d t :
  eqv (daily_total pd d t)
      (fold_right add (pandas.of_int pd 0) (amounts pd (select (on_date d) t))).
Proof.
  unfold daily_total.
  destruct (select (on_date d) t) as [|r l]; simpl empty; cbv iota.
  - simpl. exact (proj1 Hexact _).
  - exact (proj1 (proj2 (proj2 (proj2 (proj2 (proj2 (proj2 (proj2 Hexact)))))))
             _).
Qed.

Lemma daily_total_after_save_exact d t m a desc :
  positive a = true ->
  eqv (daily_total pd d (save_entry d t (label m) a desc))
      (add (daily_total pd d (delete_entry d t (label m))) (pandas.real pd a)).
Proof.
  intros Hpos.
  destruct Hexact as (Hr & Hs & Ht & Hp & Hc & Ha & Hz & _).
  apply (Ht _ _ _ (daily_total_exact _ _)).
  rewrite (select_save_entry d t m a desc Hpos).
  unfold amounts. rewrite map_app.
  apply (Ht _ _ _ (total_app pd eqv add Hexact _ _)).
  apply Hp; [apply Hs, daily_total_exact|].
  simpl. apply (Ht _ _ _ (Hc _ _)). apply Hz.
Qed.

End ExactDailyTotal.

(** The accounts of a day.  "Clear All Today's Entries" leaves no row for
    the date and the daily total [0.0].  The rows of the date are those
    left by [delete_entry] and those it deletes.  After a save with a
    positive amount the rows of the date are those left by the deletion of
    the category and, last, the new row: the daily total is the sum pandas
    takes of their amounts in that order, and with exact sums it is the
    total after the deletion plus the saved amount. *)
Theorem daily_total_accounts d t m a desc :
  select (on_date d) (clear_all d t) = [] /\
  (forall pd, daily_total pd d (clear_all d t) = pandas.of_int pd 0) /\
  Permutation (select (on_date d) t)
    (select (on_date d) (delete_entry d t (label m))
     ++ filter (fun r => on_date d r && current m r) (rows t))%list /\
  (positive a = true ->
   (forall pd,
      daily_total pd d (save_entry d t (label m) a desc)
      = pandas.series_sum pd
          (amounts pd (select (on_date d) (delete_entry d t (label m)))
           ++ [pandas.real pd a])%list) /\
   (forall pd eqv add, pandas.exact_sums pd eqv add ->
      eqv (daily_total pd d (save_entry d t (label m) a desc))
          (add (daily_total pd d (delete_entry d t (label m)))
               (pandas.real pd a)))).
Proof.
  assert (E0 : select (on_date d) (clear_all d t) = [])
    by (unfold clear_all; apply select_delete).
  split; [exact E0|].
  split; [intros pd; unfold daily_total; now rewrite E0|].
  split; [apply select_delete_entry_split|].
  intros Hpos. split.
  - intros pd. unfold daily_total.
    rewrite (select_save_entry d t m a desc Hpos).
    unfold amounts. rewrite map_app. simpl.
    now destruct (select (on_date d) (delete_entry d t (label m))).
  - intros pd eqv add Hexact. now apply daily_total_after_save_exact.
Qed.

Lemma daily_total_accounts_witness :
  positive 50 = true /\
  daily_total arithmetic.binary64 sept1
    (save_entry sept1 legacy_table (label Lunch) 50 "")
  = pandas.series_sum arithmetic.binary64
      [arithmetic.float_of_Q 30; arithmetic.float_of_Q 50].
Proof.
  split; [reflexivity|].
  exact (proj1 (proj2 (proj2 (proj2
           (daily_total_accounts sept1 legacy_table Lunch 50 ""))) eq_refl)
           arithmetic.binary64).
Defined.

(** ** The two pages on the same table *)

(** For a date of the selected month, the rows of the month's scan that
    hold the date are the rows the page Daily Entry totals for it, each
    once; and the scan returns each row of the range once. *)
Theorem monthly_rows_of_a_day (s d : datetime.date) (t : table) :
  datetime.valid s = true -> datetime.valid d = true ->
  ~ (datetime.year s = 9999 /\ datetime.month s = 12) ->
  datetime.year d = datetime.year s -> datetime.month d = datetime.month s ->
  exists df month_start month_end,
    month_range s = Some (month_start, month_end) /\
    df_month s t = Some df /\
    Permutation df
      (select (fun r => between (datetime.isoformat month_start)
                                (datetime.isoformat month_end) (date r)) t) /\
    Permutation (filter (on_date d) df) (select (on_date d) t).
Proof.
  intros Hs Hd Hmax Hy Hm.
  pose proof (month_range_value s Hs Hmax) as Hr.
  pose proof (proj1 (valid_iff s) Hs) as Hb.
  unfold df_month. rewrite Hr.
  eexists _, _, _. split; [reflexivity|]. split; [reflexivity|].
  split; [apply order_by_perm|].
  unfold select.
  set (R := fun r => between _ _ (date r)).
  apply Permutation_trans with (filter (on_date d) (filter R (rows t))).
  - apply perm_filter, order_by_perm.
  - rewrite (filter_filter_keep (on_date d) R); [apply Permutation_refl|].
    intros r E. unfold on_date in E. apply String.eqb_eq in E.
    unfold R, between. rewrite E.
    rewrite !isoformat_leb; try assumption; try solve_valid.
    apply (in_month_iff _ _ d Hd). now split.
Qed.

Lemma monthly_rows_of_a_day_witness :
  let s := datetime.mkdate 2025 9 15 in
  datetime.valid s = true /\ datetime.valid sept1 = true /\
  ~ (datetime.year s = 9999 /\ datetime.month s = 12) /\
  datetime.year sept1 = datetime.year s /\
  datetime.month sept1 = datetime.month s /\
  exists df month_start month_end,
    month_range s = Some (month_start, month_end) /\
    df_month s legacy_table = Some df /\
    Permutation df
      (select (fun r => between (datetime.isoformat month_start)
                                (datetime.isoformat month_end) (date r))
              legacy_table) /\
    Permutation (filter (on_date sept1) df) (select (on_date sept1) legacy_table).
Proof.
  intros s.
  assert (Hmax : ~ (datetime.year s = 9999 /\ datetime.month s = 12))
    by (simpl; lia).
  split; [reflexivity|]. split; [reflexivity|]. split; [exact Hmax|].
  split; [reflexivity|]. split; [reflexivity|].
  exact (monthly_rows_of_a_day s sept1 legacy_table
           eq_refl eq_refl Hmax eq_refl eq_refl).
Defined.
